(** * SBA booking notification function: model and properties

    The repository holds two variants of one Appwrite function:
    - [src/index.js]: Gmail OAuth2 transport (module [OAuth2] below);
    - [src/unnamed/part_000]: SMTP transport (module [Smtp] below).
    Both share the request normalizer, the field defaults, the validator,
    the HTML template and [escapeHtml]; they differ in the transport set-up
    and in the sender address. *)

From Stdlib Require Import Ascii String.
From stdpp Require Import base strings list gmap.

Open Scope string_scope.

(** ** JavaScript values

    A request body is either text or an already decoded JSON value.  Numbers
    are kept as their canonical rendering (what [String(n)] gives): the
    function never computes with them, it only tests them for truthiness,
    compares them with a string and prints them. *)

#[warning="-register-all"]
Inductive value : Type :=
| VUndefined
| VNull
| VBool (b : bool)
| VNum (repr : string)
| VStr (s : string)
| VArr (items : list value)
| VObj (props : list (string * value)).

(** Strings are sequences of bytes (UTF-8); the double quote is written by
    its code. *)
Definition dquote : ascii := "034"%char.
Definition dq : string := String dquote "".
Definition q (s : string) : string := dq ++ s ++ dq.
Definition nl : string := String "010"%char "".

Definition string_eqb (a b : string) : bool := bool_decide (a = b).

(** [!!v] is [negb (truthy v)]. *)
Definition truthy (v : value) : bool :=
  match v with
  | VUndefined | VNull => false
  | VBool b => b
  | VNum r => negb (string_eqb r "0") && negb (string_eqb r "NaN")
  | VStr s => negb (string_eqb s "")
  | VArr _ | VObj _ => true
  end.

(** [a || b] on values. *)
Definition or_else (a b : value) : value := if truthy a then a else b.

(** [typeof v === "object"]: [null], arrays and plain objects. *)
Definition typeof_object (v : value) : bool :=
  match v with
  | VNull | VArr _ | VObj _ => true
  | _ => false
  end.

Definition typeof_string (v : value) : bool :=
  match v with VStr _ => true | _ => false end.

(** Own property lookup; the first binding of a key is the object's. *)
Fixpoint own (k : string) (props : list (string * value)) : option value :=
  match props with
  | [] => None
  | (k', v) :: rest => if string_eqb k k' then Some v else own k rest
  end.

(** [v.k] for [v] neither [null] nor [undefined], and [k] one of the names
    the function reads (none of them is on a built-in prototype): an own
    property of an object, [undefined] otherwise. *)
Definition get (v : value) (k : string) : value :=
  match v with
  | VObj props => default VUndefined (own k props)
  | _ => VUndefined
  end.

(** [v?.k] *)
Definition get_opt (v : value) (k : string) : value :=
  match v with
  | VUndefined | VNull => VUndefined
  | _ => get v k
  end.

(** [a ?? b] *)
Definition nullish_or (a b : value) : value :=
  match a with
  | VUndefined | VNull => b
  | _ => a
  end.

Definition join (sep : string) (l : list string) : string :=
  String.concat sep l.

(** [String(v)].  [None] stands for the [TypeError] raised when an object
    cannot be converted to a primitive: a decoded JSON object whose own
    [toString] property shadows [Object.prototype.toString] (it cannot be
    callable).  Arrays are joined with commas, [null] and [undefined]
    elements giving the empty text. *)
Fixpoint ToString (v : value) : option string :=
  match v with
  | VUndefined => Some "undefined"
  | VNull => Some "null"
  | VBool true => Some "true"
  | VBool false => Some "false"
  | VNum r => Some r
  | VStr s => Some s
  | VArr items =>
      join "," <$>
        (fix elements (l : list value) : option (list string) :=
           match l with
           | [] => Some []
           | x :: rest =>
               match (match x with
                      | VUndefined | VNull => Some ""
                      | _ => ToString x
                      end) with
               | None => None
               | Some sx => cons sx <$> elements rest
               end
           end) items
  | VObj props =>
      match own "toString" props with
      | Some _ => None
      | None => Some "[object Object]"
      end
  end.

(** ** Errors *)

Record js_error : Type := Error { err_name : string; err_message : string }.

(** [Error.prototype.toString] *)
Definition error_to_string (e : js_error) : string :=
  if string_eqb (err_name e) "" then err_message e
  else if string_eqb (err_message e) "" then err_name e
  else err_name e ++ ": " ++ err_message e.

(** [err?.message || String(err)] *)
Definition error_text (e : js_error) : string :=
  if string_eqb (err_message e) "" then error_to_string e else err_message e.

(** The [TypeError] of a failed [String(v)] (V8's wording). *)
Definition cannot_convert : js_error :=
  Error "TypeError" "Cannot convert object to primitive value".

(** ** escapeHtml *)

Fixpoint flat_map_string (f : ascii -> string) (s : string) : string :=
  match s with
  | EmptyString => EmptyString
  | String c rest => f c ++ flat_map_string f rest
  end.

Definition ascii_eqb (a b : ascii) : bool := bool_decide (a = b).

(** [s.replace(/c/g, r)] for a one-character pattern. *)
Definition replace_all (c : ascii) (r : string) (s : string) : string :=
  flat_map_string (fun x => if ascii_eqb x c then r else String x "") s.

Definition escape_text (s : string) : string :=
  replace_all "'" "&#039;"
    (replace_all dquote "&quot;"
       (replace_all ">" "&gt;"
          (replace_all "<" "&lt;"
             (replace_all "&" "&amp;" s)))).

(** [String(input ?? "")] followed by the five replacements.  ([src/index.js]
    writes the parameter as [input: any]; the annotation has no effect on
    what the function computes.) *)
Definition escapeHtml (input : value) : option string :=
  escape_text <$> ToString (nullish_or input (VStr "")).

(** ** The e-mail template

    The literal text of the template literals [logoBlock] and [html], cut at
    each substitution.  The text is the same in both variants.  Each
    definition lists the lines of its piece; [q s] is [s] between double
    quotes. *)

(** [logoBlock] *)
Definition logoBlock : string :=
  join nl [
    "";
    "      <div style=" ++ q "display:flex;align-items:center;gap:14px;" ++ ">";
    "        <div style=" ++ q "width:44px;height:44px;background:#b91c1c;border-radius:999px;display:flex;align-items:center;justify-content:center;" ++ ">";
    "          <div style=" ++ q "font-family:Arial,Helvetica,sans-serif;font-weight:800;font-style:italic;letter-spacing:-1px;color:#fff;font-size:18px;" ++ ">";
    "            SBA";
    "          </div>";
    "        </div>";
    "        <div>";
    "          <div style=" ++ q "font-family:Arial,Helvetica,sans-serif;font-weight:800;letter-spacing:3px;text-transform:uppercase;color:#fff;font-size:14px;line-height:1;" ++ ">";
    "            Silva Boxing Academy";
    "          </div>";
    "          <div style=" ++ q "font-family:Arial,Helvetica,sans-serif;color:#9ca3af;font-size:11px;letter-spacing:2px;text-transform:uppercase;margin-top:6px;" ++ ">";
    "            Booking Request Notification";
    "          </div>";
    "        </div>";
    "      </div>";
    "    "
  ].

(** [html], up to [${logoBlock}] *)
Definition tpl_open : string :=
  join nl [
    "";
    "      <div style=" ++ q "background:#0a0a0a;padding:28px;margin:0;" ++ ">";
    "        <div style=" ++ q "max-width:720px;margin:0 auto;border:1px solid #222;background:#111;border-radius:10px;overflow:hidden;" ++ ">";
    "          ";
    "          <div style=" ++ q "padding:22px 22px 18px 22px;border-bottom:1px solid #222;" ++ ">";
    "            "
  ].

(** ... up to [${escapeHtml(cycleLabel)}] *)
Definition tpl_cycle : string :=
  join nl [
    "";
    "          </div>";
    "";
    "          <div style=" ++ q "padding:22px;" ++ ">";
    "            <h2 style=" ++ q "margin:0 0 10px 0;font-family:Arial,Helvetica,sans-serif;color:#fff;text-transform:uppercase;letter-spacing:2px;font-size:18px;" ++ ">";
    "              New Cycle Booking Request";
    "            </h2>";
    "            <p style=" ++ q "margin:0 0 18px 0;color:#9ca3af;font-family:Arial,Helvetica,sans-serif;font-size:13px;line-height:1.6;" ++ ">";
    "              A user submitted a booking request via the SBA website form. Details below.";
    "            </p>";
    "";
    "            <div style=" ++ q "display:block;border:1px solid #222;background:#0b0b0b;border-radius:10px;padding:16px;margin-bottom:16px;" ++ ">";
    "              <div style=" ++ q "color:#b91c1c;font-family:Arial,Helvetica,sans-serif;font-weight:800;text-transform:uppercase;letter-spacing:2px;font-size:11px;margin-bottom:10px;" ++ ">";
    "                Booking Selection";
    "              </div>";
    "              <div style=" ++ q "display:flex;gap:12px;flex-wrap:wrap;" ++ ">";
    "                <div style=" ++ q "flex:1;min-width:220px;border:1px solid #222;border-radius:10px;padding:12px;background:#111;" ++ ">";
    "                  <div style=" ++ q "color:#9ca3af;font-family:Arial,Helvetica,sans-serif;font-size:11px;text-transform:uppercase;letter-spacing:2px;margin-bottom:6px;" ++ ">";
    "                    Cycle";
    "                  </div>";
    "                  <div style=" ++ q "color:#fff;font-family:Arial,Helvetica,sans-serif;font-size:14px;font-weight:700;" ++ ">";
    "                    "
  ].

(** ... up to [${escapeHtml(packageLabel)}] *)
Definition tpl_package : string :=
  join nl [
    "";
    "                  </div>";
    "                </div>";
    "";
    "                <div style=" ++ q "flex:1;min-width:220px;border:1px solid #222;border-radius:10px;padding:12px;background:#111;" ++ ">";
    "                  <div style=" ++ q "color:#9ca3af;font-family:Arial,Helvetica,sans-serif;font-size:11px;text-transform:uppercase;letter-spacing:2px;margin-bottom:6px;" ++ ">";
    "                    Package";
    "                  </div>";
    "                  <div style=" ++ q "color:#fff;font-family:Arial,Helvetica,sans-serif;font-size:14px;font-weight:700;" ++ ">";
    "                    "
  ].

(** ... up to [${escapeHtml(fullName)}] *)
Definition tpl_fullName : string :=
  join nl [
    "";
    "                  </div>";
    "                </div>";
    "              </div>";
    "            </div>";
    "";
    "            <div style=" ++ q "border:1px solid #222;background:#0b0b0b;border-radius:10px;padding:16px;margin-bottom:16px;" ++ ">";
    "              <div style=" ++ q "color:#b91c1c;font-family:Arial,Helvetica,sans-serif;font-weight:800;text-transform:uppercase;letter-spacing:2px;font-size:11px;margin-bottom:10px;" ++ ">";
    "                Contact Details";
    "              </div>";
    "";
    "              <table style=" ++ q "width:100%;border-collapse:collapse;" ++ ">";
    "                <tr>";
    "                  <td style=" ++ q "padding:8px 0;color:#9ca3af;font-family:Arial,Helvetica,sans-serif;font-size:12px;text-transform:uppercase;letter-spacing:2px;width:160px;" ++ ">";
    "                    Full Name";
    "                  </td>";
    "                  <td style=" ++ q "padding:8px 0;color:#fff;font-family:Arial,Helvetica,sans-serif;font-size:13px;font-weight:700;" ++ ">";
    "                    "
  ].

(** ... up to [${escapeHtml(userEmail)}] *)
Definition tpl_email : string :=
  join nl [
    "";
    "                  </td>";
    "                </tr>";
    "                <tr>";
    "                  <td style=" ++ q "padding:8px 0;color:#9ca3af;font-family:Arial,Helvetica,sans-serif;font-size:12px;text-transform:uppercase;letter-spacing:2px;" ++ ">";
    "                    Email";
    "                  </td>";
    "                  <td style=" ++ q "padding:8px 0;color:#fff;font-family:Arial,Helvetica,sans-serif;font-size:13px;" ++ ">";
    "                    "
  ].

(** ... up to [${escapeHtml(phone)}] *)
Definition tpl_phone : string :=
  join nl [
    "";
    "                  </td>";
    "                </tr>";
    "                <tr>";
    "                  <td style=" ++ q "padding:8px 0;color:#9ca3af;font-family:Arial,Helvetica,sans-serif;font-size:12px;text-transform:uppercase;letter-spacing:2px;" ++ ">";
    "                    Phone / WhatsApp";
    "                  </td>";
    "                  <td style=" ++ q "padding:8px 0;color:#fff;font-family:Arial,Helvetica,sans-serif;font-size:13px;" ++ ">";
    "                    "
  ].

(** ... up to [${escapeHtml(experience)}] *)
Definition tpl_experience : string :=
  join nl [
    "";
    "                  </td>";
    "                </tr>";
    "                <tr>";
    "                  <td style=" ++ q "padding:8px 0;color:#9ca3af;font-family:Arial,Helvetica,sans-serif;font-size:12px;text-transform:uppercase;letter-spacing:2px;" ++ ">";
    "                    Experience";
    "                  </td>";
    "                  <td style=" ++ q "padding:8px 0;color:#fff;font-family:Arial,Helvetica,sans-serif;font-size:13px;" ++ ">";
    "                    "
  ].

(** ... up to the notes panel *)
Definition tpl_after_contact : string :=
  join nl [
    "";
    "                  </td>";
    "                </tr>";
    "              </table>";
    "            </div>";
    "";
    "            "
  ].

(** the notes panel, up to the goals block *)
Definition notes_open : string :=
  join nl [
    "";
    "              <div style=" ++ q "border:1px solid #222;background:#0b0b0b;border-radius:10px;padding:16px;margin-bottom:16px;" ++ ">";
    "                <div style=" ++ q "color:#b91c1c;font-family:Arial,Helvetica,sans-serif;font-weight:800;text-transform:uppercase;letter-spacing:2px;font-size:11px;margin-bottom:10px;" ++ ">";
    "                  Notes";
    "                </div>";
    "                "
  ].

(** the goals block, up to [${escapeHtml(goals)}] *)
Definition goals_open : string :=
  join nl [
    "";
    "                  <div style=" ++ q "margin-bottom:10px;" ++ ">";
    "                    <div style=" ++ q "color:#9ca3af;font-family:Arial,Helvetica,sans-serif;font-size:12px;text-transform:uppercase;letter-spacing:2px;margin-bottom:6px;" ++ ">";
    "                      Primary Goals";
    "                    </div>";
    "                    <div style=" ++ q "color:#fff;font-family:Arial,Helvetica,sans-serif;font-size:13px;line-height:1.6;" ++ ">";
    "                      "
  ].

(** the end of the goals block *)
Definition goals_close : string :=
  join nl [
    "";
    "                    </div>";
    "                  </div>";
    "                "
  ].

(** between the goals block and the message block *)
Definition notes_between : string :=
  join nl [
    "";
    "                "
  ].

(** the message block, up to [${escapeHtml(message)}] *)
Definition message_open : string :=
  join nl [
    "";
    "                  <div>";
    "                    <div style=" ++ q "color:#9ca3af;font-family:Arial,Helvetica,sans-serif;font-size:12px;text-transform:uppercase;letter-spacing:2px;margin-bottom:6px;" ++ ">";
    "                      Message";
    "                    </div>";
    "                    <div style=" ++ q "color:#fff;font-family:Arial,Helvetica,sans-serif;font-size:13px;line-height:1.6;white-space:pre-wrap;" ++ ">";
    "                      "
  ].

(** the end of the message block *)
Definition message_close : string :=
  join nl [
    "";
    "                    </div>";
    "                  </div>";
    "                "
  ].

(** the end of the notes panel *)
Definition notes_close : string :=
  join nl [
    "";
    "              </div>";
    "            "
  ].

(** after the notes panel, up to [${escapeHtml(now)}] *)
Definition tpl_received : string :=
  join nl [
    "";
    "";
    "            <div style=" ++ q "padding-top:10px;border-top:1px solid #222;color:#6b7280;font-family:Arial,Helvetica,sans-serif;font-size:11px;line-height:1.6;" ++ ">";
    "              Received: "
  ].

(** the end of [html] *)
Definition tpl_close : string :=
  join nl [
    " (Europe/Berlin)<br/>";
    "              This email was generated automatically from the SBA Cycle Booking Form.";
    "            </div>";
    "          </div>";
    "        </div>";
    "      </div>";
    "    "
  ].

(** ** Request normalizer *)

(** The collaborators of one invocation: the built-ins [JSON.parse]
    ([None]: it throws), [parseInt(s, 10)] ([None]: [NaN]) and the clock, the
    process environment, and the outcome of the two network calls. *)

Inductive transport : Type :=
| GmailOAuth2 (user clientId clientSecret refreshToken : string) (accessToken : value)
| SmtpServer (host : option string) (port : option Z) (secure : bool)
             (user pass : option string).

Record mail_options : Type := MailOptions {
  from : string;
  to : string;
  replyTo : value;
  subject : string;
  html : string
}.

Record world : Type := World {
  JSON_parse : string -> option value;
  parseInt10 : string -> option Z;
  now : string;
  env : gmap string string;
  getAccessToken : string -> string -> string -> js_error + value;
  sendMail : transport -> mail_options -> option js_error
}.

(** [let body = req.body; if (typeof body === "string") { try { body =
    JSON.parse(body) } catch { body = {} } }] *)
Definition parse_body (w : world) (req_body : value) : value :=
  match req_body with
  | VStr s =>
      match JSON_parse w s with
      | Some v => v
      | None => VObj []
      end
  | _ => req_body
  end.

(** [body?.payload && typeof body.payload === "object" ? body.payload : body || {}]
    ([body.payload] is only evaluated when [body?.payload] is truthy, so
    [body] is an object there.) *)
Definition payload_of (body : value) : value :=
  if truthy (get_opt body "payload") && typeof_object (get body "payload")
  then get body "payload"
  else or_else body (VObj []).

(** ** Field defaults *)

Record submission : Type := Submission {
  fullName : value;
  userEmail : value;
  phone : value;
  experience : value;
  goals : value;
  message : value;
  cycle : value;
  cycleLabel : value;
  pkg : value;
  packageLabel : value
}.

Definition read_fields (payload : value) : submission :=
  let fullName := or_else (get payload "fullName") (or_else (get payload "name") (VStr "Unknown")) in
  let userEmail := or_else (get payload "email") (VStr "Unknown") in
  let phone := or_else (get payload "phone") (or_else (get payload "whatsapp") (VStr "Unknown")) in
  let experience := or_else (get payload "experience") (VStr "Unknown") in
  let goals := or_else (get payload "goals") (VStr "") in
  let message := or_else (get payload "message") (VStr "") in
  let cycle := or_else (get payload "cycle") (VStr "Unknown") in
  let cycleLabel := or_else (get payload "cycleLabel") cycle in
  let pkg := or_else (get payload "package") (VStr "Unknown") in
  let packageLabel := or_else (get payload "packageLabel") pkg in
  Submission fullName userEmail phone experience goals message
             cycle cycleLabel pkg packageLabel.

(** ** Field validator *)

(** [if (c) missing.push(name)] *)
Definition push_if (c : bool) (name : string) (missing : list string) : list string :=
  if c then (missing ++ [name])%list else missing.

Definition missing_fields (payload : value) : list string :=
  let missing := [] in
  let missing := push_if (negb (truthy (get payload "fullName")) && negb (truthy (get payload "name")))
                         "fullName" missing in
  let missing := push_if (negb (truthy (get payload "email"))) "email" missing in
  let missing := push_if (negb (truthy (get payload "phone")) && negb (truthy (get payload "whatsapp")))
                         "phone" missing in
  let missing := push_if (negb (truthy (get payload "cycle")) && negb (truthy (get payload "cycleLabel")))
                         "cycle" missing in
  let missing := push_if (negb (truthy (get payload "package")) && negb (truthy (get payload "packageLabel")))
                         "package" missing in
  missing.

(** ** Email renderer *)

(** [goals ? `...${escapeHtml(goals)}...` : ""] *)
Definition goals_block (f : submission) : option string :=
  if truthy (goals f)
  then e ← escapeHtml (goals f); Some (goals_open ++ e ++ goals_close)
  else Some "".

Definition message_block (f : submission) : option string :=
  if truthy (message f)
  then e ← escapeHtml (message f); Some (message_open ++ e ++ message_close)
  else Some "".

(** [(goals || message) ? `...` : ""] *)
Definition notes_panel (f : submission) : option string :=
  if truthy (or_else (goals f) (message f))
  then g ← goals_block f;
       m ← message_block f;
       Some (notes_open ++ g ++ notes_between ++ m ++ notes_close)
  else Some "".

(** The template literal [html]; [None] when a substitution throws. *)
Definition render_html (f : submission) (now : string) : option string :=
  e_cycleLabel ← escapeHtml (cycleLabel f);
  e_packageLabel ← escapeHtml (packageLabel f);
  e_fullName ← escapeHtml (fullName f);
  e_userEmail ← escapeHtml (userEmail f);
  e_phone ← escapeHtml (phone f);
  e_experience ← escapeHtml (experience f);
  notes ← notes_panel f;
  e_now ← escapeHtml (VStr now);
  Some (tpl_open ++ logoBlock
        ++ tpl_cycle ++ e_cycleLabel
        ++ tpl_package ++ e_packageLabel
        ++ tpl_fullName ++ e_fullName
        ++ tpl_email ++ e_userEmail
        ++ tpl_phone ++ e_phone
        ++ tpl_experience ++ e_experience
        ++ tpl_after_contact ++ notes
        ++ tpl_received ++ e_now
        ++ tpl_close).

(** [`SBA Booking Request — ${fullName} — ${cycleLabel}`] *)
Definition render_subject (f : submission) : option string :=
  n ← ToString (fullName f);
  c ← ToString (cycleLabel f);
  Some ("SBA Booking Request — " ++ n ++ " — " ++ c).

(** ** Effects: the trace of outside calls, and exceptions *)

Inductive event : Type :=
| TokenExchange (clientId clientSecret refreshToken : string)
| SendMail (t : transport) (m : mail_options)
| Log (text : string)
| LogError (label detail : string).

Definition M (A : Type) : Type := (list event * (js_error + A))%type.

#[global] Instance M_ret : MRet M := fun A a => ([], inr a).

#[global] Instance M_bind : MBind M := fun A B k m =>
  match m with
  | (t, inl e) => (t, inl e)
  | (t, inr a) => let '(t', r) := k a in ((t ++ t')%list, r)
  end.

Definition throw {A : Type} (e : js_error) : M A := ([], inl e).
Definition emit (ev : event) : M unit := ([ev], inr tt).

(** A conversion to text that may raise the [TypeError]. *)
Definition converted {A : Type} (o : option A) : M A :=
  match o with
  | Some a => mret a
  | None => throw cannot_convert
  end.

(** ** Response builder *)

Record result_body : Type := ResultBody { ok : bool; error : option string }.
Record response : Type := Response { body : result_body; statusCode : Z }.

(** [res.json(obj, statusCode)]; the runtime's default status is 200. *)
Definition res_json (obj : result_body) (statusCode : Z) : response :=
  Response obj statusCode.

Definition failure (msg : string) : result_body := ResultBody false (Some msg).
Definition success : result_body := ResultBody true None.

(** The outer [try { ... } catch (err) { ... }]. *)
Definition catch_all (main : M response) : list event * response :=
  match main with
  | (t, inr r) => (t, r)
  | (t, inl err) =>
      ((t ++ [LogError "❌ SBA email sending failed:" (error_text err)])%list,
       res_json (failure (error_text err)) 500)
  end.

(** [!x] for an environment variable. *)
Definition env_unset (x : option string) : bool :=
  match x with
  | Some s => string_eqb s ""
  | None => true
  end.

(** [process.env.K || d] *)
Definition env_or (w : world) (k d : string) : string :=
  if env_unset (env w !! k) then d else default d (env w !! k).

(** [v !== "Unknown"] *)
Definition is_not_unknown (v : value) : bool :=
  match v with
  | VStr s => negb (string_eqb s "Unknown")
  | _ => true
  end.

Definition validation_message (missing : list string) : string :=
  "Missing required fields: " ++ join ", " missing.

(** [await transporter.sendMail(mailOptions)] and what follows it. *)
Definition send_and_reply (w : world) (transporter : transport)
    (mailOptions : mail_options) (sent : string) : M response :=
  emit (SendMail transporter mailOptions);;
  match sendMail w transporter mailOptions with
  | Some err => throw err
  | None => emit (Log sent);; mret (res_json success 200)
  end.

(** [const TO_EMAIL = process.env.SBA_ADMIN_EMAIL || "silvaboxingacademy@gmail.com"] *)
Definition TO_EMAIL (w : world) : string :=
  env_or w "SBA_ADMIN_EMAIL" "silvaboxingacademy@gmail.com".

(** [const mailOptions = { from: `"SBA Website" <${sender}>`, to: TO_EMAIL,
    replyTo: userEmail !== "Unknown" ? userEmail : undefined, subject, html }] *)
Definition mailOptions (sender : string) (w : world) (f : submission)
    (subject html : string) : mail_options :=
  {| from := q "SBA Website" ++ " <" ++ sender ++ ">";
     to := TO_EMAIL w;
     replyTo := if is_not_unknown (userEmail f) then userEmail f else VUndefined;
     subject := subject;
     html := html |}.

(** ** The Gmail OAuth2 variant ([src/index.js]) *)

Module OAuth2.

Definition env_error : string :=
  "Missing Gmail OAuth env vars. Required: GOOGLE_CLIENT_ID, GOOGLE_CLIENT_SECRET, GOOGLE_REFRESH_TOKEN".

Definition mint_error : string := "Failed to mint Gmail access token.".

Definition GOOGLE_CLIENT_ID (w : world) : option string := env w !! "GOOGLE_CLIENT_ID".
Definition GOOGLE_CLIENT_SECRET (w : world) : option string := env w !! "GOOGLE_CLIENT_SECRET".
Definition GOOGLE_REFRESH_TOKEN (w : world) : option string := env w !! "GOOGLE_REFRESH_TOKEN".

Definition GMAIL_SENDER (w : world) : string :=
  env_or w "GMAIL_SENDER" "silvaboxingacademy@gmail.com".

(** [!GOOGLE_CLIENT_ID || !GOOGLE_CLIENT_SECRET || !GOOGLE_REFRESH_TOKEN] *)
Definition secrets_missing (w : world) : bool :=
  env_unset (GOOGLE_CLIENT_ID w) || env_unset (GOOGLE_CLIENT_SECRET w)
  || env_unset (GOOGLE_REFRESH_TOKEN w).

(** The call [oAuth2Client.getAccessToken()] with the credentials the
    client was built from. *)
Definition exchange (w : world) : js_error + value :=
  getAccessToken w (default "" (GOOGLE_CLIENT_ID w))
                 (default "" (GOOGLE_CLIENT_SECRET w))
                 (default "" (GOOGLE_REFRESH_TOKEN w)).

(** The inner [try] block: the exchange, then the emptiness test. *)
Definition mint (w : world) : js_error + value :=
  match exchange w with
  | inl e => inl e
  | inr tokenResponse =>
      let accessToken := or_else (get_opt tokenResponse "token") (VStr "") in
      if negb (truthy accessToken)
      then inl (Error "Error" "Empty access token returned.")
      else inr accessToken
  end.

Definition transporter (w : world) (accessToken : value) : transport :=
  GmailOAuth2 (GMAIL_SENDER w)
              (default "" (GOOGLE_CLIENT_ID w))
              (default "" (GOOGLE_CLIENT_SECRET w))
              (default "" (GOOGLE_REFRESH_TOKEN w))
              accessToken.

Definition main (w : world) (req_body : value) : M response :=
  let body := parse_body w req_body in
  let payload := payload_of body in
  let f := read_fields payload in
  let missing := missing_fields payload in
  if negb (bool_decide (length missing = 0))
  then mret (res_json (failure (validation_message missing)) 400)
  else if secrets_missing w
  then mret (res_json (failure env_error) 500)
  else
    emit (TokenExchange (default "" (GOOGLE_CLIENT_ID w))
                        (default "" (GOOGLE_CLIENT_SECRET w))
                        (default "" (GOOGLE_REFRESH_TOKEN w)));;
    match mint w with
    | inl e =>
        emit (LogError "❌ Failed to mint Gmail access token:" (error_text e));;
        mret (res_json (failure mint_error) 500)
    | inr accessToken =>
        html ← converted (render_html f (now w));
        subject ← converted (render_subject f);
        send_and_reply w (transporter w accessToken)
                       (mailOptions (GMAIL_SENDER w) w f subject html)
                       "✅ SBA booking email sent (Gmail OAuth2)."
    end.

Definition handler (w : world) (req_body : value) : list event * response :=
  catch_all (main w req_body).

End OAuth2.

(** ** The SMTP variant ([src/unnamed/part_000]) *)

Module Smtp.

(** [`${process.env.SMTP_USER}`] *)
Definition SMTP_USER_text (w : world) : string :=
  default "undefined" (env w !! "SMTP_USER").

(** [nodemailer.createTransport({ host, port, secure, auth: { user, pass } })] *)
Definition transporter (w : world) : transport :=
  SmtpServer (env w !! "SMTP_HOST")
             (parseInt10 w (env_or w "SMTP_PORT" "587"))
             (bool_decide (env w !! "SMTP_SECURE" = Some "true"))
             (env w !! "SMTP_USER")
             (env w !! "SMTP_PASS").

Definition main (w : world) (req_body : value) : M response :=
  let body := parse_body w req_body in
  let payload := payload_of body in
  let f := read_fields payload in
  let missing := missing_fields payload in
  if negb (bool_decide (length missing = 0))
  then mret (res_json (failure (validation_message missing)) 400)
  else
    html ← converted (render_html f (now w));
    subject ← converted (render_subject f);
    send_and_reply w (transporter w)
                   (mailOptions (SMTP_USER_text w) w f subject html)
                   "✅ SBA booking email sent.".

Definition handler (w : world) (req_body : value) : list event * response :=
  catch_all (main w req_body).

End Smtp.

(** ** Sample collaborators and requests, used by the examples below *)

Definition ann_props : list (string * value) :=
  [("fullName", VStr "Ann <script>alert(1)</script>");
   ("email", VStr "ann@example.org");
   ("whatsapp", VStr "+49 30 1234");
   ("cycle", VStr "cycle-1");
   ("package", VStr "p3");
   ("goals", VStr "Fitness & fun")].

Definition ann : value := VObj ann_props.

(** The JSON text of [ann]. *)
Definition ann_text : string :=
  "{" ++ q "fullName" ++ ":" ++ q "Ann <script>alert(1)</script>" ++ ","
      ++ q "email" ++ ":" ++ q "ann@example.org" ++ ","
      ++ q "whatsapp" ++ ":" ++ q "+49 30 1234" ++ ","
      ++ q "cycle" ++ ":" ++ q "cycle-1" ++ ","
      ++ q "package" ++ ":" ++ q "p3" ++ ","
      ++ q "goals" ++ ":" ++ q "Fitness & fun" ++ "}".

(** A decoder that knows the sample text and rejects everything else. *)
Definition sample_parse (s : string) : option value :=
  if string_eqb s ann_text then Some ann else None.

Definition sample_parseInt (s : string) : option Z :=
  if string_eqb s "587" then Some 587%Z
  else if string_eqb s "465" then Some 465%Z
  else None.

Definition oauth_env : gmap string string :=
  {[ "GOOGLE_CLIENT_ID" := "id"; "GOOGLE_CLIENT_SECRET" := "secret";
     "GOOGLE_REFRESH_TOKEN" := "refresh" ]}.

Definition smtp_env : gmap string string :=
  {[ "SMTP_HOST" := "smtp.example.org"; "SMTP_USER" := "sba@example.org";
     "SMTP_PASS" := "pw" ]}.

Definition token_ok (clientId clientSecret refreshToken : string) : js_error + value :=
  inr (VObj [("token", VStr "ya29.token")]).

Definition token_empty (clientId clientSecret refreshToken : string) : js_error + value :=
  inr (VObj [("token", VNull)]).

Definition token_fails (clientId clientSecret refreshToken : string) : js_error + value :=
  inl (Error "GaxiosError" "invalid_grant").

Definition send_ok (t : transport) (m : mail_options) : option js_error := None.

Definition send_fails (msg : string) (t : transport) (m : mail_options) : option js_error :=
  Some (Error "Error" msg).

Definition sample_world (e : gmap string string)
    (tok : string -> string -> string -> js_error + value)
    (snd : transport -> mail_options -> option js_error) : world :=
  {| JSON_parse := sample_parse;
     parseInt10 := sample_parseInt;
     now := "01/11/2026, 12:00:00";
     env := e;
     getAccessToken := tok;
     sendMail := snd |}.

(** ** Vocabulary of the properties *)

(** Number of occurrences of a character. *)
Fixpoint occ (c : ascii) (s : string) : nat :=
  match s with
  | EmptyString => 0
  | String x rest => (if ascii_eqb x c then 1 else 0) + occ c rest
  end.

(** The characters [escapeHtml] removes besides the ampersand. *)
Definition markup (c : ascii) : Prop :=
  c = "<"%char \/ c = ">"%char \/ c = dquote \/ c = "'"%char.

(** What follows the ampersand in the five character references. *)
Definition entity_tails : list string := ["amp;"; "lt;"; "gt;"; "quot;"; "#039;"].

Definition begins_entity (rest : string) : bool :=
  existsb (fun e => String.prefix e rest) entity_tails.

(** Every ampersand of the text starts a character reference. *)
Fixpoint amp_ok (s : string) : bool :=
  match s with
  | EmptyString => true
  | String x rest =>
      (if ascii_eqb x "&" then begins_entity rest else true) && amp_ok rest
  end.

(** [needle] occurs in [hay]. *)
Fixpoint contains (needle hay : string) : bool :=
  String.prefix needle hay ||
  match hay with
  | EmptyString => false
  | String _ rest => contains needle rest
  end.

(** What the five replacements of [escapeHtml] do to one character. *)
Definition escape_char (x : ascii) : string :=
  if ascii_eqb x "&" then "&amp;"
  else if ascii_eqb x "<" then "&lt;"
  else if ascii_eqb x ">" then "&gt;"
  else if ascii_eqb x dquote then "&quot;"
  else if ascii_eqb x "'" then "&#039;"
  else String x "".

(** Occurrences of [c] in the literal text of the template, for a body with
    or without the goals block and the message block. *)
Definition layout_count (c : ascii) (with_goals with_message : bool) : nat :=
  occ c tpl_open + occ c logoBlock + occ c tpl_cycle + occ c tpl_package
  + occ c tpl_fullName + occ c tpl_email + occ c tpl_phone
  + occ c tpl_experience + occ c tpl_after_contact
  + (if with_goals || with_message
     then occ c notes_open
          + (if with_goals then occ c goals_open + occ c goals_close else 0)
          + occ c notes_between
          + (if with_message then occ c message_open + occ c message_close else 0)
          + occ c notes_close
     else 0)
  + occ c tpl_received + occ c tpl_close.

(** The mail handed to the transport, if the trace has a send. *)
Fixpoint sent_mail (t : list event) : option (transport * mail_options) :=
  match t with
  | [] => None
  | SendMail tr m :: _ => Some (tr, m)
  | _ :: rest => sent_mail rest
  end.

(** Number of sends, and of network calls (token exchanges and sends). *)
Definition is_send (ev : event) : bool :=
  match ev with SendMail _ _ => true | _ => false end.

Definition is_network_call (ev : event) : bool :=
  match ev with SendMail _ _ | TokenExchange _ _ _ => true | _ => false end.

Definition sends (t : list event) : nat := length (List.filter is_send t).
Definition network_calls (t : list event) : nat := length (List.filter is_network_call t).

(** The submission source of a request, and its fields. *)
Definition payload (w : world) (req_body : value) : value :=
  payload_of (parse_body w req_body).

Definition submitted (w : world) (req_body : value) : submission :=
  read_fields (payload w req_body).

(** The request passes the field validation. *)
Definition valid (w : world) (req_body : value) : Prop :=
  missing_fields (payload w req_body) = [].

(** The label of the error log line of the outer [catch]. *)
Definition send_failed_label : string := "❌ SBA email sending failed:".
Definition mint_failed_label : string := "❌ Failed to mint Gmail access token:".
Definition token_exchange (w : world) : event :=
  TokenExchange (default "" (OAuth2.GOOGLE_CLIENT_ID w))
                (default "" (OAuth2.GOOGLE_CLIENT_SECRET w))
                (default "" (OAuth2.GOOGLE_REFRESH_TOKEN w)).

(** ** The validator, as the specification words it

    Five required fields in a fixed order, each with the payload keys that
    can supply it.  A key supplies a field when its value is truthy. *)
Definition required_fields : list (string * list string) :=
  [("fullName", ["fullName"; "name"]);
   ("email", ["email"]);
   ("phone", ["phone"; "whatsapp"]);
   ("cycle", ["cycle"; "cycleLabel"]);
   ("package", ["package"; "packageLabel"])].

Definition supplied (p : value) (k : string) : bool := truthy (get p k).

Definition field_missing (p : value) (r : string * list string) : bool :=
  forallb (fun k => negb (supplied p k)) (snd r).

Definition missing_per_spec (p : value) : list string :=
  map fst (List.filter (field_missing p) required_fields).

(** The object without its property [k]. *)
Definition remove_key (k : string) (props : list (string * value)) : list (string * value) :=
  List.filter (fun kv => negb (string_eqb (fst kv) k)) props.

(** The envelope [{ payload: {...} }]. *)
Definition wrapped (props : list (string * value)) : value :=
  VObj [("payload", VObj props)].


(** The escaped text of [v] is part of the body [h]. *)
Definition rendered_in (v : value) (h : string) : Prop :=
  exists e before after, escapeHtml v = Some e /\ h = before ++ e ++ after.

(** A decoded value that is an object or an array. *)
Definition structured (v : value) : bool :=
  match v with VObj _ | VArr _ => true | _ => false end.

(** An environment variable that is not set, or set to the empty text. *)
Definition not_configured (w : world) (k : string) : Prop :=
  env w !! k = None \/ env w !! k = Some "".

(** An environment variable that is set to a non-empty text. *)
Definition configured (w : world) (k : string) : Prop :=
  exists s, env w !! k = Some s /\ s <> "".

(** The token exchange gives no usable token: it throws, or the response
    has no token (or an empty one). *)
Definition exchange_fails (w : world) : Prop :=
  (exists e, OAuth2.exchange w = inl e)
  \/ (exists r, OAuth2.exchange w = inr r /\ truthy (get_opt r "token") = false).


(** [req] is sent as [mo] over [tr] by one of the two variants. *)
Definition sent_by (w : world) (req : value) (tr : transport) (mo : mail_options) : Prop :=
  sent_mail (fst (OAuth2.handler w req)) = Some (tr, mo)
  \/ sent_mail (fst (Smtp.handler w req)) = Some (tr, mo).

(** The mail a variant builds for a request that renders. *)
Definition built_mail (sender : string) (w : world) (req : value) : mail_options :=
  mailOptions sender w (submitted w req)
              (default "" (render_subject (submitted w req)))
              (default "" (render_html (submitted w req) (now w))).

(** Every field the body shows converts to text (always so for text,
    numbers, booleans, and objects without a [toString] property). *)
Definition converts (v : value) : Prop := exists s, ToString v = Some s.

Definition fields_convert (f : submission) : Prop :=
  converts (cycleLabel f) /\ converts (packageLabel f) /\ converts (fullName f)
  /\ converts (userEmail f) /\ converts (phone f) /\ converts (experience f)
  /\ converts (goals f) /\ converts (message f).

(** ** Vocabulary of the further properties *)

(** The five characters [escapeHtml] rewrites. *)
Definition special (c : ascii) : bool :=
  ascii_eqb c "&" || ascii_eqb c "<" || ascii_eqb c ">"
  || ascii_eqb c dquote || ascii_eqb c "'".

(** A text with none of the five characters. *)
Fixpoint plain_text (s : string) : bool :=
  match s with
  | EmptyString => true
  | String c rest => negb (special c) && plain_text rest
  end.

(** A value that is neither an array nor an object. *)
Definition primitive (v : value) : bool :=
  match v with VArr _ | VObj _ => false | _ => true end.

Definition is_plain_object (v : value) : bool :=
  match v with VObj _ => true | _ => false end.

(** The five canonical names, as the validator lists them. *)
Definition all_five : list string := ["fullName"; "email"; "phone"; "cycle"; "package"].

Definition is_exchange (ev : event) : bool :=
  match ev with TokenExchange _ _ _ => true | _ => false end.

Definition is_error_line (ev : event) : bool :=
  match ev with LogError _ _ => true | _ => false end.

Definition is_log_line (ev : event) : bool :=
  match ev with Log _ => true | _ => false end.

Definition exchanges (t : list event) : nat := length (List.filter is_exchange t).
Definition error_lines (t : list event) : nat := length (List.filter is_error_line t).
Definition log_lines (t : list event) : nat := length (List.filter is_log_line t).

(** The runs of the OAuth2 variant, one constructor for each way out of
    [src/index.js]: the 400 of the validator, the 500 of the secrets test,
    the 500 of the inner [catch], the outer [catch] reached from the
    template or from the send, and the 200. *)
Inductive oauth2_run (w : world) (req : value) : list event * response -> Prop :=
| O_rejected :
    missing_fields (payload w req) <> [] ->
    oauth2_run w req
      ([], res_json (failure (validation_message (missing_fields (payload w req)))) 400)
| O_no_secrets :
    valid w req -> OAuth2.secrets_missing w = true ->
    oauth2_run w req ([], res_json (failure OAuth2.env_error) 500)
| O_mint_failed (e : js_error) :
    valid w req -> OAuth2.secrets_missing w = false -> OAuth2.mint w = inl e ->
    oauth2_run w req
      ([token_exchange w; LogError mint_failed_label (error_text e)],
       res_json (failure OAuth2.mint_error) 500)
| O_unconvertible (accessToken : value) :
    valid w req -> OAuth2.secrets_missing w = false ->
    OAuth2.mint w = inr accessToken ->
    render_html (submitted w req) (now w) = None ->
    oauth2_run w req
      ([token_exchange w; LogError send_failed_label (error_text cannot_convert)],
       res_json (failure (error_text cannot_convert)) 500)
| O_send_failed (accessToken : value) (err : js_error) :
    valid w req -> OAuth2.secrets_missing w = false ->
    OAuth2.mint w = inr accessToken ->
    render_html (submitted w req) (now w) <> None ->
    sendMail w (OAuth2.transporter w accessToken)
             (built_mail (OAuth2.GMAIL_SENDER w) w req) = Some err ->
    oauth2_run w req
      ([token_exchange w;
        SendMail (OAuth2.transporter w accessToken)
                 (built_mail (OAuth2.GMAIL_SENDER w) w req);
        LogError send_failed_label (error_text err)],
       res_json (failure (error_text err)) 500)
| O_sent (accessToken : value) :
    valid w req -> OAuth2.secrets_missing w = false ->
    OAuth2.mint w = inr accessToken ->
    render_html (submitted w req) (now w) <> None ->
    sendMail w (OAuth2.transporter w accessToken)
             (built_mail (OAuth2.GMAIL_SENDER w) w req) = None ->
    oauth2_run w req
      ([token_exchange w;
        SendMail (OAuth2.transporter w accessToken)
                 (built_mail (OAuth2.GMAIL_SENDER w) w req);
        Log "✅ SBA booking email sent (Gmail OAuth2)."],
       res_json success 200).

(** The runs of the SMTP variant ([src/unnamed/part_000]). *)
Inductive smtp_run (w : world) (req : value) : list event * response -> Prop :=
| S_rejected :
    missing_fields (payload w req) <> [] ->
    smtp_run w req
      ([], res_json (failure (validation_message (missing_fields (payload w req)))) 400)
| S_unconvertible :
    valid w req ->
    render_html (submitted w req) (now w) = None ->
    smtp_run w req
      ([LogError send_failed_label (error_text cannot_convert)],
       res_json (failure (error_text cannot_convert)) 500)
| S_send_failed (err : js_error) :
    valid w req ->
    render_html (submitted w req) (now w) <> None ->
    sendMail w (Smtp.transporter w) (built_mail (Smtp.SMTP_USER_text w) w req) = Some err ->
    smtp_run w req
      ([SendMail (Smtp.transporter w) (built_mail (Smtp.SMTP_USER_text w) w req);
        LogError send_failed_label (error_text err)],
       res_json (failure (error_text err)) 500)
| S_sent :
    valid w req ->
    render_html (submitted w req) (now w) <> None ->
    sendMail w (Smtp.transporter w) (built_mail (Smtp.SMTP_USER_text w) w req) = None ->
    smtp_run w req
      ([SendMail (Smtp.transporter w) (built_mail (Smtp.SMTP_USER_text w) w req);
        Log "✅ SBA booking email sent."],
       res_json success 200).

(** A response of the shape [{ok, error?}] with a status the function uses. *)
Definition well_formed (r : response) : Prop :=
  (statusCode r = 200%Z /\ body r = success)
  \/ ((statusCode r = 400%Z \/ statusCode r = 500%Z)
      /\ exists msg, body r = failure msg).

(** The payload keys the function reads. *)
Definition read_keys : list string :=
  ["fullName"; "name"; "email"; "phone"; "whatsapp"; "experience"; "goals";
   "message"; "cycle"; "cycleLabel"; "package"; "packageLabel"].

(** * Properties *)

(** ** Texts *)

Lemma append_nil (b : string) : "" ++ b = b.
Proof. reflexivity. Qed.

Lemma append_cons (x : ascii) (a b : string) : String x a ++ b = String x (a ++ b).
Proof. reflexivity. Qed.

Lemma append_assoc (a b c : string) : (a ++ b) ++ c = a ++ (b ++ c).
Proof.
  induction a as [|x a IH]; [reflexivity |].
  now rewrite !append_cons, IH.
Qed.

Lemma occ_app (c : ascii) (a b : string) : occ c (a ++ b) = occ c a + occ c b.
Proof.
  induction a as [|x a IH]; [reflexivity |].
  rewrite append_cons. simpl. rewrite IH. lia.
Qed.

Lemma prefix_app (e t b : string) :
  String.prefix e t = true -> String.prefix e (t ++ b) = true.
Proof.
  revert t. induction e as [|x e IH]; intros t; [now destruct (t ++ b) |].
  destruct t as [|y t]; simpl; [discriminate |].
  destruct (Ascii.ascii_dec x y); [apply IH | discriminate].
Qed.

Lemma begins_entity_app (t b : string) :
  begins_entity t = true -> begins_entity (t ++ b) = true.
Proof.
  unfold begins_entity. rewrite !existsb_exists.
  intros (e & He & Hp). exists e. split; [exact He | now apply prefix_app].
Qed.

Lemma amp_ok_app (a b : string) :
  amp_ok a = true -> amp_ok b = true -> amp_ok (a ++ b) = true.
Proof.
  induction a as [|x a IH]; intros Ha Hb; [exact Hb |].
  rewrite append_cons. simpl in *.
  apply andb_true_iff in Ha as [Hx Ha]. apply andb_true_iff. split.
  - destruct (ascii_eqb x "&"); [now apply begins_entity_app | reflexivity].
  - now apply IH.
Qed.

Lemma flat_map_string_app (f : ascii -> string) (a b : string) :
  flat_map_string f (a ++ b) = flat_map_string f a ++ flat_map_string f b.
Proof.
  induction a as [|x a IH]; [reflexivity |].
  rewrite append_cons. simpl. now rewrite IH, append_assoc.
Qed.

Lemma flat_map_string_compose (f g : ascii -> string) (s : string) :
  flat_map_string g (flat_map_string f s)
  = flat_map_string (fun x => flat_map_string g (f x)) s.
Proof.
  induction s as [|x s IH]; simpl; [reflexivity |].
  now rewrite flat_map_string_app, IH.
Qed.

Lemma flat_map_string_ext (f g : ascii -> string) (s : string) :
  (forall x, f x = g x) -> flat_map_string f s = flat_map_string g s.
Proof.
  intros H. induction s as [|x s IH]; simpl; [reflexivity | now rewrite H, IH].
Qed.

(** The five passes amount to one pass that rewrites each character. *)
Lemma escape_text_chars (s : string) :
  escape_text s = flat_map_string escape_char s.
Proof.
  unfold escape_text, replace_all.
  rewrite !flat_map_string_compose.
  apply flat_map_string_ext.
  intros [[] [] [] [] [] [] [] []]; reflexivity.
Qed.

Lemma occ_flat_map_zero (c : ascii) (f : ascii -> string) (s : string) :
  (forall x, occ c (f x) = 0) -> occ c (flat_map_string f s) = 0.
Proof.
  intros H. induction s as [|x s IH]; simpl; [reflexivity |].
  now rewrite occ_app, H, IH.
Qed.

Lemma escape_text_no_markup (c : ascii) (s : string) :
  markup c -> occ c (escape_text s) = 0.
Proof.
  intros Hc. rewrite escape_text_chars. apply occ_flat_map_zero.
  destruct Hc as [-> | [-> | [-> | ->]]];
    intros [[] [] [] [] [] [] [] []]; reflexivity.
Qed.

Lemma escape_text_amp_ok (s : string) : amp_ok (escape_text s) = true.
Proof.
  rewrite escape_text_chars.
  induction s as [|x s IH]; simpl; [reflexivity |].
  apply amp_ok_app; [| exact IH].
  destruct x as [[] [] [] [] [] [] [] []]; reflexivity.
Qed.

Lemma escapeHtml_Some (v : value) (e : string) :
  escapeHtml v = Some e -> exists s, ToString (nullish_or v (VStr "")) = Some s /\ e = escape_text s.
Proof.
  unfold escapeHtml. destruct (ToString _) as [s|]; simpl; [| easy].
  intros [= <-]. now exists s.
Qed.

Lemma escapeHtml_amp_ok (v : value) (e : string) :
  escapeHtml v = Some e -> amp_ok e = true.
Proof. intros (s & _ & ->)%escapeHtml_Some. apply escape_text_amp_ok. Qed.

Lemma escapeHtml_no_markup (c : ascii) (v : value) (e : string) :
  markup c -> escapeHtml v = Some e -> occ c e = 0.
Proof. intros Hc (s & _ & ->)%escapeHtml_Some. now apply escape_text_no_markup. Qed.

Lemma truthy_or_else (a b : value) :
  truthy (or_else a b) = truthy a || truthy b.
Proof. unfold or_else. destruct (truthy a) eqn:E; simpl; [exact E | reflexivity]. Qed.

(** ** The model on small inputs *)

Example escape_text_sample :
  escape_text "a<b & 'c' >" = "a&lt;b &amp; &#039;c&#039; &gt;".
Proof. reflexivity. Qed.

Example escape_twice_sample : escape_text "&lt;" = "&amp;lt;".
Proof. reflexivity. Qed.

Example escapeHtml_nullish :
  escapeHtml VUndefined = Some "" /\ escapeHtml VNull = Some "".
Proof. split; reflexivity. Qed.

Example ToString_array :
  ToString (VArr [VNum "1"; VNull; VArr [VStr "a"; VBool true]]) = Some "1,,a,true".
Proof. reflexivity. Qed.

Example ToString_plain_object : ToString (VObj [("a", VNum "1")]) = Some "[object Object]".
Proof. reflexivity. Qed.

Example ToString_shadowed : ToString (VObj [("toString", VStr "x")]) = None.
Proof. reflexivity. Qed.

Example error_text_samples :
  error_text (Error "Error" "boom") = "boom"
  /\ error_text (Error "TypeError" "") = "TypeError".
Proof. split; reflexivity. Qed.

Example payload_of_samples :
  payload_of (VObj [("payload", VObj [("email", VStr "a@b")])]) = VObj [("email", VStr "a@b")]
  /\ payload_of (VObj [("payload", VNull); ("email", VStr "a@b")])
     = VObj [("payload", VNull); ("email", VStr "a@b")]
  /\ payload_of VNull = VObj []
  /\ payload_of (VNum "5") = VNum "5".
Proof. repeat split; reflexivity. Qed.

Example missing_fields_samples :
  missing_fields (VObj []) = ["fullName"; "email"; "phone"; "cycle"; "package"]
  /\ missing_fields (VObj [("name", VStr "Ann"); ("cycleLabel", VStr "Next cycle")])
     = ["email"; "phone"; "package"]
  /\ missing_fields ann = [].
Proof. repeat split; reflexivity. Qed.

(** ** The renderer *)

(** One step through a text conversion that may fail. *)
Ltac bind_step H :=
  match type of H with
  | mbind _ ?o = Some _ =>
      let E := fresh "E" in
      destruct o eqn:E; [cbn [mbind option_bind] in H | discriminate H]
  end.

Ltac bind_steps H := repeat bind_step H; injection H as <-.

(** The literal text of the template has no ampersand at all. *)
Lemma template_amp_ok :
  Forall (fun s => amp_ok s = true)
    [tpl_open; logoBlock; tpl_cycle; tpl_package; tpl_fullName; tpl_email;
     tpl_phone; tpl_experience; tpl_after_contact; notes_open; goals_open;
     goals_close; notes_between; message_open; message_close; notes_close;
     tpl_received; tpl_close].
Proof. repeat constructor; vm_compute; reflexivity. Qed.

Ltac amp_ok_pieces :=
  repeat match goal with
         | |- amp_ok (_ ++ _) = true => apply amp_ok_app
         | |- amp_ok ?e = true =>
             first [ eapply escapeHtml_amp_ok; eassumption
                   | assumption
                   | vm_compute; reflexivity ]
         end.

Lemma goals_block_amp_ok (f : submission) (g : string) :
  goals_block f = Some g -> amp_ok g = true.
Proof.
  unfold goals_block. intros H.
  destruct (truthy (goals f)); bind_steps H; amp_ok_pieces.
Qed.

Lemma message_block_amp_ok (f : submission) (m : string) :
  message_block f = Some m -> amp_ok m = true.
Proof.
  unfold message_block. intros H.
  destruct (truthy (message f)); bind_steps H; amp_ok_pieces.
Qed.

Lemma notes_panel_amp_ok (f : submission) (p : string) :
  notes_panel f = Some p -> amp_ok p = true.
Proof.
  unfold notes_panel. intros H.
  destruct (truthy (or_else (goals f) (message f))); bind_steps H;
    [| reflexivity].
  match goal with
  | Hg : goals_block f = Some _, Hm : message_block f = Some _ |- _ =>
      apply goals_block_amp_ok in Hg; apply message_block_amp_ok in Hm
  end.
  amp_ok_pieces.
Qed.

Lemma render_html_amp_ok (f : submission) (n h : string) :
  render_html f n = Some h -> amp_ok h = true.
Proof.
  unfold render_html. intros H. bind_steps H.
  match goal with
  | Hn : notes_panel f = Some _ |- _ => apply notes_panel_amp_ok in Hn
  end.
  amp_ok_pieces.
Qed.

Ltac occ_pieces c :=
  rewrite ?occ_app;
  repeat match goal with
         | H : escapeHtml _ = Some ?e |- _ =>
             apply (escapeHtml_no_markup c) in H; [rewrite H | assumption]
         end.

Lemma goals_block_occ (c : ascii) (f : submission) (g : string) :
  markup c -> goals_block f = Some g ->
  occ c g = if truthy (goals f) then occ c goals_open + occ c goals_close else 0.
Proof.
  unfold goals_block. intros Hc H.
  destruct (truthy (goals f)); bind_steps H; [| reflexivity].
  occ_pieces c. lia.
Qed.

Lemma message_block_occ (c : ascii) (f : submission) (m : string) :
  markup c -> message_block f = Some m ->
  occ c m = if truthy (message f) then occ c message_open + occ c message_close else 0.
Proof.
  unfold message_block. intros Hc H.
  destruct (truthy (message f)); bind_steps H; [| reflexivity].
  occ_pieces c. lia.
Qed.

Lemma notes_panel_occ (c : ascii) (f : submission) (p : string) :
  markup c -> notes_panel f = Some p ->
  occ c p =
  if truthy (goals f) || truthy (message f)
  then occ c notes_open
       + (if truthy (goals f) then occ c goals_open + occ c goals_close else 0)
       + occ c notes_between
       + (if truthy (message f) then occ c message_open + occ c message_close else 0)
       + occ c notes_close
  else 0.
Proof.
  unfold notes_panel. intros Hc H. rewrite truthy_or_else in H.
  destruct (truthy (goals f) || truthy (message f)); bind_steps H;
    [| reflexivity].
  match goal with
  | Hg : goals_block f = Some _, Hm : message_block f = Some _ |- _ =>
      apply (goals_block_occ c) in Hg; [| assumption];
      apply (message_block_occ c) in Hm; [| assumption];
      rewrite !occ_app, Hg, Hm
  end.
  lia.
Qed.

Lemma render_html_occ (c : ascii) (f : submission) (n h : string) :
  markup c -> render_html f n = Some h ->
  occ c h = layout_count c (truthy (goals f)) (truthy (message f)).
Proof.
  unfold render_html, layout_count. intros Hc H. bind_steps H.
  match goal with
  | Hn : notes_panel f = Some _ |- _ =>
      apply (notes_panel_occ c) in Hn; [| assumption]; rewrite !occ_app, Hn
  end.
  occ_pieces c. lia.
Qed.

Lemma ToString_nullish (v : value) (s : string) :
  ToString (nullish_or v (VStr "")) = Some s -> exists s', ToString v = Some s'.
Proof.
  destruct v; simpl; intros H; eauto.
Qed.

(** When the body renders, so does the subject line. *)
Lemma render_subject_total (f : submission) (n h : string) :
  render_html f n = Some h -> exists s, render_subject f = Some s.
Proof.
  unfold render_html, render_subject. intros H.
  bind_step H. bind_step H. bind_step H.
  repeat match goal with
         | E : escapeHtml _ = Some _ |- _ =>
             apply escapeHtml_Some in E as (? & (? & ?)%ToString_nullish & _)
         end.
  repeat match goal with E : ToString _ = Some _ |- _ => rewrite E; clear E end.
  cbn [mbind option_bind]. eauto.
Qed.

(** ** The handlers, case by case *)

Ltac run :=
  change (negb (bool_decide (length (@nil string) = 0))) with false;
  cbn [catch_all mbind M_bind mret M_ret emit throw converted send_and_reply
       app fst snd].

Lemma nonempty_check (l : list string) :
  negb (bool_decide (length l = 0)) = negb (bool_decide (l = [])).
Proof. destruct l; reflexivity. Qed.

Section Cases.

Variables (w : world) (req : value).

Lemma oauth2_rejects :
  missing_fields (payload w req) <> [] ->
  OAuth2.handler w req
  = ([], res_json (failure (validation_message (missing_fields (payload w req)))) 400).
Proof.
  intros H. unfold OAuth2.handler, OAuth2.main. fold (payload w req).
  rewrite nonempty_check, bool_decide_eq_false_2 by exact H. reflexivity.
Qed.

Lemma smtp_rejects :
  missing_fields (payload w req) <> [] ->
  Smtp.handler w req
  = ([], res_json (failure (validation_message (missing_fields (payload w req)))) 400).
Proof.
  intros H. unfold Smtp.handler, Smtp.main. fold (payload w req).
  rewrite nonempty_check, bool_decide_eq_false_2 by exact H. reflexivity.
Qed.

Hypothesis Hvalid : valid w req.

Lemma oauth2_no_secrets :
  OAuth2.secrets_missing w = true ->
  OAuth2.handler w req = ([], res_json (failure OAuth2.env_error) 500).
Proof.
  intros H. unfold OAuth2.handler, OAuth2.main. fold (payload w req).
  rewrite Hvalid, H. reflexivity.
Qed.

Lemma oauth2_mint_fails (e : js_error) :
  OAuth2.secrets_missing w = false ->
  OAuth2.mint w = inl e ->
  OAuth2.handler w req
  = ([token_exchange w; LogError mint_failed_label (error_text e)],
     res_json (failure OAuth2.mint_error) 500).
Proof.
  intros H Hm. unfold OAuth2.handler, OAuth2.main. fold (payload w req).
  rewrite Hvalid, H, Hm. reflexivity.
Qed.

Lemma oauth2_render_fails (accessToken : value) :
  OAuth2.secrets_missing w = false ->
  OAuth2.mint w = inr accessToken ->
  render_html (submitted w req) (now w) = None ->
  OAuth2.handler w req
  = ([token_exchange w; LogError send_failed_label (error_text cannot_convert)],
     res_json (failure (error_text cannot_convert)) 500).
Proof.
  intros H Hm Hr. unfold OAuth2.handler, OAuth2.main. fold (payload w req).
  fold (submitted w req). rewrite Hvalid, H, Hm, Hr. reflexivity.
Qed.

Lemma oauth2_sends (accessToken : value) (h s : string) :
  OAuth2.secrets_missing w = false ->
  OAuth2.mint w = inr accessToken ->
  render_html (submitted w req) (now w) = Some h ->
  render_subject (submitted w req) = Some s ->
  let tr := OAuth2.transporter w accessToken in
  let mo := mailOptions (OAuth2.GMAIL_SENDER w) w (submitted w req) s h in
  OAuth2.handler w req
  = match sendMail w tr mo with
    | None =>
        ([token_exchange w; SendMail tr mo;
          Log "✅ SBA booking email sent (Gmail OAuth2)."],
         res_json success 200)
    | Some err =>
        ([token_exchange w; SendMail tr mo;
          LogError send_failed_label (error_text err)],
         res_json (failure (error_text err)) 500)
    end.
Proof.
  intros H Hm Hr Hs tr mo. unfold OAuth2.handler, OAuth2.main.
  fold (payload w req). fold (submitted w req).
  rewrite Hvalid, H, Hm, Hr, Hs. run. fold tr mo.
  destruct (sendMail w tr mo); reflexivity.
Qed.

Lemma smtp_render_fails :
  render_html (submitted w req) (now w) = None ->
  Smtp.handler w req
  = ([LogError send_failed_label (error_text cannot_convert)],
     res_json (failure (error_text cannot_convert)) 500).
Proof.
  intros Hr. unfold Smtp.handler, Smtp.main. fold (payload w req).
  fold (submitted w req). rewrite Hvalid, Hr. reflexivity.
Qed.

Lemma smtp_sends (h s : string) :
  render_html (submitted w req) (now w) = Some h ->
  render_subject (submitted w req) = Some s ->
  let tr := Smtp.transporter w in
  let mo := mailOptions (Smtp.SMTP_USER_text w) w (submitted w req) s h in
  Smtp.handler w req
  = match sendMail w tr mo with
    | None =>
        ([SendMail tr mo; Log "✅ SBA booking email sent."],
         res_json success 200)
    | Some err =>
        ([SendMail tr mo; LogError send_failed_label (error_text err)],
         res_json (failure (error_text err)) 500)
    end.
Proof.
  intros Hr Hs tr mo. unfold Smtp.handler, Smtp.main.
  fold (payload w req). fold (submitted w req).
  rewrite Hvalid, Hr, Hs. run. fold tr mo.
  destruct (sendMail w tr mo); reflexivity.
Qed.

End Cases.

(** A handler reads the request only through the fields and the list of
    missing names. *)
Lemma handlers_read_fields (w : world) (r1 r2 : value) :
  read_fields (payload w r1) = read_fields (payload w r2) ->
  missing_fields (payload w r1) = missing_fields (payload w r2) ->
  OAuth2.handler w r1 = OAuth2.handler w r2 /\ Smtp.handler w r1 = Smtp.handler w r2.
Proof.
  intros Hf Hm.
  unfold OAuth2.handler, OAuth2.main, Smtp.handler, Smtp.main.
  fold (payload w r1) (payload w r2). now rewrite Hf, Hm.
Qed.

(** ** The validator *)

Lemma missing_fields_per_spec (p : value) :
  missing_fields p = missing_per_spec p.
Proof.
  unfold missing_fields, missing_per_spec, field_missing, supplied, push_if.
  cbn [required_fields List.filter forallb snd fst map].
  rewrite !andb_true_r.
  destruct (negb (truthy (get p "fullName")) && negb (truthy (get p "name"))),
    (negb (truthy (get p "email"))),
    (negb (truthy (get p "phone")) && negb (truthy (get p "whatsapp"))),
    (negb (truthy (get p "cycle")) && negb (truthy (get p "cycleLabel"))),
    (negb (truthy (get p "package")) && negb (truthy (get p "packageLabel")));
    reflexivity.
Qed.

Lemma valid_not_rejected (w : world) (req : value) :
  valid w req ->
  statusCode (snd (OAuth2.handler w req)) <> 400%Z
  /\ statusCode (snd (Smtp.handler w req)) <> 400%Z.
Proof.
  intros Hv. split.
  - destruct (OAuth2.secrets_missing w) eqn:Hs;
      [now rewrite (oauth2_no_secrets w req Hv Hs) |].
    destruct (OAuth2.mint w) as [e | tok] eqn:Hm;
      [now rewrite (oauth2_mint_fails w req Hv e Hs Hm) |].
    destruct (render_html (submitted w req) (now w)) as [h |] eqn:Hr;
      [| now rewrite (oauth2_render_fails w req Hv tok Hs Hm Hr)].
    destruct (render_subject_total _ _ _ Hr) as [s Hsub].
    rewrite (oauth2_sends w req Hv tok h s Hs Hm Hr Hsub).
    now destruct (sendMail w _ _).
  - destruct (render_html (submitted w req) (now w)) as [h |] eqn:Hr;
      [| now rewrite (smtp_render_fails w req Hv Hr)].
    destruct (render_subject_total _ _ _ Hr) as [s Hsub].
    rewrite (smtp_sends w req Hv h s Hr Hsub).
    now destruct (sendMail w _ _).
Qed.

(** C2.  Whatever the request, the validator's list is the list of the
    required fields that no key supplies, in the fixed order fullName,
    email, phone, cycle, package (all of them are examined).  When that
    list is not empty both variants answer 400 with
    [{ok: false, error: "Missing required fields: <names joined by comma>"}]
    and call nothing outside; when it is empty neither answers 400. *)
Theorem validator_reports_all_missing (w : world) (req : value) :
  missing_fields (payload w req) = missing_per_spec (payload w req)
  /\ (missing_per_spec (payload w req) <> [] ->
      let reply :=
        ([], {| body := {| ok := false;
                           error := Some ("Missing required fields: "
                                          ++ join ", " (missing_per_spec (payload w req))) |};
                statusCode := 400 |}) in
      OAuth2.handler w req = reply /\ Smtp.handler w req = reply)
  /\ (missing_per_spec (payload w req) = [] ->
      statusCode (snd (OAuth2.handler w req)) <> 400%Z
      /\ statusCode (snd (Smtp.handler w req)) <> 400%Z).
Proof.
  split; [apply missing_fields_per_spec |].
  rewrite <- missing_fields_per_spec. split.
  - intros H reply. split.
    + now rewrite oauth2_rejects.
    + now rewrite smtp_rejects.
  - apply valid_not_rejected.
Qed.

(** A request with only an e-mail address: four names, in order. *)
Lemma validator_reports_all_missing_witness :
  let req := wrapped [("email", VStr "ann@example.org")] in
  let w := sample_world oauth_env token_ok send_ok in
  missing_per_spec (payload w req) = ["fullName"; "phone"; "cycle"; "package"]
  /\ snd (Smtp.handler w req)
     = res_json (failure "Missing required fields: fullName, phone, cycle, package") 400.
Proof.
  intros req w.
  destruct (validator_reports_all_missing w req) as (_ & H & _).
  split; [reflexivity |].
  destruct H as [_ ->]; [discriminate | reflexivity].
Defined.

(** ** Truthiness, not presence *)

Lemma string_eqb_eq (a b : string) : string_eqb a b = true <-> a = b.
Proof. unfold string_eqb. apply bool_decide_eq_true. Qed.

Lemma string_eqb_neq (a b : string) : string_eqb a b = false <-> a <> b.
Proof. unfold string_eqb. apply bool_decide_eq_false. Qed.

Lemma own_remove_same (k : string) (props : list (string * value)) :
  own k (remove_key k props) = None.
Proof.
  induction props as [|[k' v] props IH]; [reflexivity |].
  unfold remove_key in *. simpl.
  destruct (string_eqb k' k) eqn:E; simpl; [exact IH |].
  destruct (string_eqb k k') eqn:E'; [| exact IH].
  apply string_eqb_eq in E'. apply string_eqb_neq in E. congruence.
Qed.

Lemma own_remove_other (k k' : string) (props : list (string * value)) :
  k' <> k -> own k' (remove_key k props) = own k' props.
Proof.
  intros Hne. induction props as [|[k'' v] props IH]; [reflexivity |].
  unfold remove_key in *. simpl.
  destruct (string_eqb k'' k) eqn:E; simpl.
  - apply string_eqb_eq in E as ->.
    destruct (string_eqb k' k) eqn:E'; [| exact IH].
    now apply string_eqb_eq in E'.
  - now rewrite IH.
Qed.

(** Reading any key through [x || d]: a falsy binding is as good as none. *)
Lemma falsy_binding_or_else (k : string) (v : value) (props : list (string * value))
    (k' : string) (d : value) :
  truthy v = false ->
  or_else (get (VObj ((k, v) :: props)) k') d
  = or_else (get (VObj (remove_key k props)) k') d.
Proof.
  intros Hv. unfold get. simpl.
  destruct (string_eqb k' k) eqn:E.
  - apply string_eqb_eq in E as ->. rewrite own_remove_same. simpl.
    unfold or_else. now rewrite Hv.
  - apply string_eqb_neq in E. now rewrite own_remove_other.
Qed.

Lemma falsy_binding_truthy (k : string) (v : value) (props : list (string * value))
    (k' : string) :
  truthy v = false ->
  truthy (get (VObj ((k, v) :: props)) k')
  = truthy (get (VObj (remove_key k props)) k').
Proof.
  intros Hv. unfold get. simpl.
  destruct (string_eqb k' k) eqn:E.
  - apply string_eqb_eq in E as ->. now rewrite own_remove_same.
  - apply string_eqb_neq in E. now rewrite own_remove_other.
Qed.

Lemma falsy_binding_fields (k : string) (v : value) (props : list (string * value)) :
  truthy v = false ->
  read_fields (VObj ((k, v) :: props)) = read_fields (VObj (remove_key k props))
  /\ missing_fields (VObj ((k, v) :: props)) = missing_fields (VObj (remove_key k props)).
Proof.
  intros Hv. split.
  - unfold read_fields. now rewrite !(falsy_binding_or_else k v props _ _ Hv).
  - unfold missing_fields. now rewrite !(falsy_binding_truthy k v props _ Hv).
Qed.

Lemma payload_wrapped (w : world) (props : list (string * value)) :
  payload w (wrapped props) = VObj props.
Proof. reflexivity. Qed.

Lemma payload_object (w : world) (props : list (string * value)) :
  payload w (VObj props)
  = match own "payload" props with
    | Some (VObj nested) => VObj nested
    | Some (VArr items) => VArr items
    | _ => VObj props
    end.
Proof.
  unfold payload, payload_of, parse_body, get_opt, get.
  destruct (own "payload" props) as [[]|]; simpl;
    rewrite ?andb_false_r; reflexivity.
Qed.

(** C10.  A property bound to a falsy value (the empty string, [null],
    [false], [0]) changes nothing with respect to the same payload without
    that property: trace and response of both variants are the same, for a
    payload inside the envelope and for a payload given directly.  Hence a
    required field whose keys are all falsy or absent is reported in the 400
    response like an absent one. *)
Theorem falsy_value_is_missing (w : world) (k : string) (v : value)
    (props : list (string * value)) :
  truthy v = false ->
  (OAuth2.handler w (wrapped ((k, v) :: props)) = OAuth2.handler w (wrapped (remove_key k props))
   /\ Smtp.handler w (wrapped ((k, v) :: props)) = Smtp.handler w (wrapped (remove_key k props)))
  /\ (k <> "payload" ->
      OAuth2.handler w (VObj ((k, v) :: props)) = OAuth2.handler w (VObj (remove_key k props))
      /\ Smtp.handler w (VObj ((k, v) :: props)) = Smtp.handler w (VObj (remove_key k props)))
  /\ (forall r, In r required_fields -> In k (snd r) ->
      (forall k', In k' (snd r) -> k' <> k -> truthy (get (VObj props) k') = false) ->
      In (fst r) (missing_fields (VObj ((k, v) :: props)))
      /\ statusCode (snd (OAuth2.handler w (wrapped ((k, v) :: props)))) = 400%Z
      /\ statusCode (snd (Smtp.handler w (wrapped ((k, v) :: props)))) = 400%Z).
Proof.
  intros Hv. destruct (falsy_binding_fields k v props Hv) as [Hf Hm].
  split; [| split].
  - apply handlers_read_fields; now rewrite !payload_wrapped.
  - intros Hk. apply string_eqb_neq in Hk.
    apply handlers_read_fields; rewrite !payload_object; simpl own;
      rewrite (proj2 (string_eqb_neq "payload" k)) by
        (apply string_eqb_neq in Hk; congruence);
      rewrite own_remove_other by (apply string_eqb_neq in Hk; congruence);
      destruct (own "payload" props) as [[]|]; auto.
  - intros r Hr Hk Hothers.
    assert (Hin : In (fst r) (missing_fields (VObj ((k, v) :: props)))).
    { rewrite missing_fields_per_spec. unfold missing_per_spec.
      apply in_map, filter_In. split; [exact Hr |].
      unfold field_missing. apply forallb_forall. intros k' Hk'.
      unfold supplied. apply negb_true_iff.
      destruct (string_eqb k' k) eqn:E.
      - apply string_eqb_eq in E as ->. unfold get. simpl.
        unfold string_eqb. rewrite bool_decide_eq_true_2 by reflexivity. exact Hv.
      - apply string_eqb_neq in E. specialize (Hothers k' Hk' E).
        unfold get in *. simpl. unfold string_eqb at 1.
        rewrite bool_decide_eq_false_2 by exact E. exact Hothers. }
    split; [exact Hin |].
    assert (Hne : missing_fields (payload w (wrapped ((k, v) :: props))) <> []).
    { rewrite payload_wrapped. intros E. now rewrite E in Hin. }
    rewrite oauth2_rejects, smtp_rejects by exact Hne. now split.
Qed.

(** An empty e-mail address is reported like a missing one. *)
Lemma falsy_value_is_missing_witness :
  let w := sample_world smtp_env token_ok send_ok in
  let rest := [("fullName", VStr "Ann"); ("phone", VStr "1"); ("cycle", VStr "c");
               ("package", VStr "p")] in
  Smtp.handler w (wrapped (("email", VStr "") :: rest)) = Smtp.handler w (wrapped rest)
  /\ snd (Smtp.handler w (wrapped (("email", VStr "") :: rest)))
     = res_json (failure "Missing required fields: email") 400.
Proof.
  intros w rest.
  split; [| reflexivity].
  destruct (falsy_value_is_missing w "email" (VStr "") rest eq_refl) as [[_ H] _].
  exact H.
Defined.

(** ** The request normalizer *)

Lemma payload_of_structured (body : value) :
  structured (get body "payload") = true -> payload_of body = get body "payload".
Proof.
  unfold payload_of, get_opt. intros H.
  destruct body; try discriminate H.
  now destruct (get (VObj props) "payload").
Qed.

Lemma payload_of_top_level (body : value) :
  structured (get body "payload") = false ->
  payload_of body = or_else body (VObj [])
  /\ (forall k, get (payload_of body) k = get body k)
  /\ (structured body = true -> payload_of body = body).
Proof.
  unfold payload_of, get_opt. intros H.
  assert (E : truthy (match body with
                      | VUndefined | VNull => VUndefined
                      | _ => get body "payload"
                      end) && typeof_object (get body "payload") = false).
  { destruct body; try reflexivity.
    destruct (get (VObj props) "payload"); simpl in *;
      rewrite ?andb_false_r; congruence. }
  rewrite E. split; [reflexivity |]. split.
  - intros k. unfold or_else. now destruct (truthy body) eqn:T, body.
  - now destruct body.
Qed.

Lemma same_payload (w : world) (r1 r2 : value) :
  parse_body w r1 = parse_body w r2 ->
  OAuth2.handler w r1 = OAuth2.handler w r2 /\ Smtp.handler w r1 = Smtp.handler w r2.
Proof.
  intros H. apply handlers_read_fields; unfold payload; now rewrite H.
Qed.

(** C3.  (1) A text body that does not decode is the empty record: the
    request is answered like the body [{}], by the validator (400, all five
    names) and not by the error path.  (2) When the decoded value has a
    property [payload] that is an object (or an array), the submission is
    read from it; otherwise it is read from the decoded value itself, an
    empty record standing for a value without properties.  (3) A text body
    that decodes to [v] is answered exactly like the body [v] already
    decoded, for every [v] that is not itself text. *)
Theorem body_normalization (w : world) :
  (forall s, JSON_parse w s = None ->
     parse_body w (VStr s) = VObj []
     /\ OAuth2.handler w (VStr s) = OAuth2.handler w (VObj [])
     /\ Smtp.handler w (VStr s) = Smtp.handler w (VObj [])
     /\ OAuth2.handler w (VStr s)
        = ([], res_json (failure "Missing required fields: fullName, email, phone, cycle, package") 400)
     /\ Smtp.handler w (VStr s)
        = ([], res_json (failure "Missing required fields: fullName, email, phone, cycle, package") 400))
  /\ (forall body,
        (structured (get body "payload") = true -> payload_of body = get body "payload")
        /\ (structured (get body "payload") = false ->
            payload_of body = or_else body (VObj [])
            /\ (forall k, get (payload_of body) k = get body k)
            /\ (structured body = true -> payload_of body = body)))
  /\ (forall s v, JSON_parse w s = Some v -> typeof_string v = false ->
        OAuth2.handler w (VStr s) = OAuth2.handler w v
        /\ Smtp.handler w (VStr s) = Smtp.handler w v).
Proof.
  split; [| split].
  - intros s Hs.
    assert (Hp : parse_body w (VStr s) = VObj []) by (simpl; now rewrite Hs).
    assert (Hm : missing_fields (payload w (VStr s)) <> [])
      by (unfold payload; now rewrite Hp).
    split; [exact Hp |].
    split; [now apply same_payload |].
    split; [now apply same_payload |].
    rewrite oauth2_rejects, smtp_rejects by exact Hm.
    unfold payload. rewrite Hp. now split.
  - intros body. split; [apply payload_of_structured | apply payload_of_top_level].
  - intros s v Hs Hv. apply same_payload. simpl. rewrite Hs. now destruct v.
Qed.

(** The sample request as text and as a decoded object. *)
Lemma body_normalization_witness :
  let w := sample_world oauth_env token_ok send_ok in
  OAuth2.handler w (VStr ann_text) = OAuth2.handler w ann
  /\ snd (OAuth2.handler w (VStr ann_text)) = res_json success 200
  /\ snd (Smtp.handler w (VStr "not json"))
     = res_json (failure "Missing required fields: fullName, email, phone, cycle, package") 400.
Proof.
  intros w.
  destruct (body_normalization w) as (Hbad & _ & Hsame).
  split; [apply (Hsame ann_text ann); reflexivity |].
  split; [reflexivity |].
  destruct (Hbad "not json" eq_refl) as (_ & _ & _ & _ & ->). reflexivity.
Defined.

(** ** Field defaults and fallbacks *)

Lemma rendered_in_here (v : value) (e rest : string) :
  escapeHtml v = Some e -> rendered_in v (e ++ rest).
Proof. intros H. now exists e, "", rest. Qed.

Lemma rendered_in_later (v : value) (s rest : string) :
  rendered_in v rest -> rendered_in v (s ++ rest).
Proof.
  intros (e & before & after & He & ->).
  exists e, (s ++ before), after. split; [exact He |].
  now rewrite append_assoc.
Qed.

Ltac find_rendered :=
  repeat first [ apply rendered_in_here; assumption | apply rendered_in_later ].

Lemma render_html_fields (f : submission) (n h : string) :
  render_html f n = Some h ->
  rendered_in (cycleLabel f) h /\ rendered_in (packageLabel f) h
  /\ rendered_in (fullName f) h /\ rendered_in (userEmail f) h
  /\ rendered_in (phone f) h /\ rendered_in (experience f) h.
Proof.
  unfold render_html. intros H. bind_steps H.
  repeat split; find_rendered.
Qed.











(** ** What a send tells about the request *)

Lemma valid_or_not (w : world) (req : value) :
  valid w req \/ missing_fields (payload w req) <> [].
Proof. unfold valid. destruct (missing_fields _); [now left | now right]. Qed.

Lemma oauth2_sent_inv (w : world) (req : value) (tr : transport) (mo : mail_options) :
  sent_mail (fst (OAuth2.handler w req)) = Some (tr, mo) ->
  valid w req /\ OAuth2.secrets_missing w = false
  /\ exists accessToken h s,
       OAuth2.mint w = inr accessToken
       /\ render_html (submitted w req) (now w) = Some h
       /\ render_subject (submitted w req) = Some s
       /\ tr = OAuth2.transporter w accessToken
       /\ mo = mailOptions (OAuth2.GMAIL_SENDER w) w (submitted w req) s h.
Proof.
  intros H.
  destruct (valid_or_not w req) as [Hv | Hv];
    [| now rewrite oauth2_rejects in H].
  destruct (OAuth2.secrets_missing w) eqn:Hs;
    [now rewrite oauth2_no_secrets in H |].
  destruct (OAuth2.mint w) as [e | tok] eqn:Hm;
    [now rewrite (oauth2_mint_fails w req Hv e) in H |].
  destruct (render_html (submitted w req) (now w)) as [h |] eqn:Hr;
    [| now rewrite (oauth2_render_fails w req Hv tok) in H].
  destruct (render_subject_total _ _ _ Hr) as [s Hsub].
  rewrite (oauth2_sends w req Hv tok h s Hs Hm Hr Hsub) in H.
  split; [exact Hv |]. split; [reflexivity |]. exists tok, h, s.
  destruct (sendMail w _ _); simpl in H; injection H as <- <-; auto.
Qed.

Lemma smtp_sent_inv (w : world) (req : value) (tr : transport) (mo : mail_options) :
  sent_mail (fst (Smtp.handler w req)) = Some (tr, mo) ->
  valid w req
  /\ exists h s,
       render_html (submitted w req) (now w) = Some h
       /\ render_subject (submitted w req) = Some s
       /\ tr = Smtp.transporter w
       /\ mo = mailOptions (Smtp.SMTP_USER_text w) w (submitted w req) s h.
Proof.
  intros H.
  destruct (valid_or_not w req) as [Hv | Hv];
    [| now rewrite smtp_rejects in H].
  destruct (render_html (submitted w req) (now w)) as [h |] eqn:Hr;
    [| now rewrite (smtp_render_fails w req Hv) in H].
  destruct (render_subject_total _ _ _ Hr) as [s Hsub].
  rewrite (smtp_sends w req Hv h s Hr Hsub) in H.
  split; [exact Hv |]. exists h, s.
  destruct (sendMail w _ _); simpl in H; injection H as <- <-; auto.
Qed.

(** Whichever variant sent it, the mail is built from the fields. *)
Lemma sent_by_inv (w : world) (req : value) (tr : transport) (mo : mail_options) :
  sent_by w req tr mo ->
  valid w req
  /\ exists sender h s,
       render_html (submitted w req) (now w) = Some h
       /\ mo = mailOptions sender w (submitted w req) s h.
Proof.
  intros [H | H].
  - apply oauth2_sent_inv in H as (Hv & _ & tok & h & s & _ & Hr & _ & _ & ->).
    split; [exact Hv |]. now exists (OAuth2.GMAIL_SENDER w), h, s.
  - apply smtp_sent_inv in H as (Hv & h & s & Hr & _ & _ & ->).
    split; [exact Hv |]. now exists (Smtp.SMTP_USER_text w), h, s.
Qed.

Lemma valid_email (w : world) (req : value) :
  valid w req -> truthy (get (payload w req) "email") = true.
Proof.
  unfold valid, missing_fields, push_if. intros H.
  destruct (truthy (get (payload w req) "email")); [reflexivity |].
  cbn [negb] in H.
  repeat match type of H with
         | context [if ?c then _ else _] => destruct c
         end; simpl in H; discriminate H.
Qed.

(** ** Reply-to *)

(** C9.  A mail that is sent (so the request passed the validation) has
    the submitted e-mail value as reply-to exactly when that value is not
    the text ["Unknown"]; when it is, also because the user typed it,
    reply-to is left out.  The sender's display name is always
    "SBA Website" (between double quotes). *)
Theorem reply_to_rule (w : world) (req : value) (tr : transport) (mo : mail_options) :
  sent_by w req tr mo ->
  valid w req
  /\ (get (payload w req) "email" <> VStr "Unknown" ->
      replyTo mo = get (payload w req) "email")
  /\ (get (payload w req) "email" = VStr "Unknown" -> replyTo mo = VUndefined)
  /\ exists sender, from mo = q "SBA Website" ++ " <" ++ sender ++ ">".
Proof.
  intros (Hv & sender & h & s & _ & ->)%sent_by_inv.
  pose proof (valid_email w req Hv) as He.
  split; [exact Hv |].
  assert (Hu : userEmail (submitted w req) = get (payload w req) "email").
  { unfold submitted, read_fields. cbn [userEmail]. unfold or_else. now rewrite He. }
  cbn [mailOptions replyTo from]. rewrite Hu.
  split; [| split].
  - intros Hne. destruct (get (payload w req) "email"); try reflexivity.
    cbn [is_not_unknown]. destruct (string_eqb s0 "Unknown") eqn:E; [| reflexivity].
    apply string_eqb_eq in E. congruence.
  - now intros ->.
  - now exists sender.
Qed.

(** The sample request has a reply-to; the same request with the e-mail
    ["Unknown"] has none. *)
Lemma reply_to_rule_witness :
  let w := sample_world smtp_env token_ok send_ok in
  let unknown := VObj (("email", VStr "Unknown") :: ann_props) in
  replyTo (built_mail (Smtp.SMTP_USER_text w) w ann) = VStr "ann@example.org"
  /\ replyTo (built_mail (Smtp.SMTP_USER_text w) w unknown) = VUndefined.
Proof.
  intros w unknown.
  assert (Ha : sent_by w ann (Smtp.transporter w)
                       (built_mail (Smtp.SMTP_USER_text w) w ann))
    by (right; vm_compute; reflexivity).
  assert (Hu : sent_by w unknown (Smtp.transporter w)
                       (built_mail (Smtp.SMTP_USER_text w) w unknown))
    by (right; vm_compute; reflexivity).
  destruct (reply_to_rule w ann _ _ Ha) as (_ & Hr & _).
  destruct (reply_to_rule w unknown _ _ Hu) as (_ & _ & Hr' & _).
  split; [| now apply Hr'].
  rewrite Hr; [reflexivity | vm_compute; discriminate].
Defined.

(** ** Escaping *)

Lemma rendered_in_before (v : value) (s rest : string) :
  rendered_in v s -> rendered_in v (s ++ rest).
Proof.
  intros (e & before & after & He & ->).
  exists e, before, (after ++ rest). split; [exact He |].
  now rewrite !append_assoc.
Qed.

Lemma notes_panel_goals (f : submission) (p : string) :
  notes_panel f = Some p -> truthy (goals f) = true -> rendered_in (goals f) p.
Proof.
  unfold notes_panel, goals_block. intros H Hg.
  rewrite truthy_or_else, Hg in H. cbn [orb] in H.
  destruct (escapeHtml (goals f)) as [e|] eqn:E; [| discriminate H].
  cbn [mbind option_bind] in H. bind_steps H.
  apply rendered_in_later, rendered_in_before. find_rendered.
Qed.

Lemma notes_panel_message (f : submission) (p : string) :
  notes_panel f = Some p -> truthy (message f) = true -> rendered_in (message f) p.
Proof.
  unfold notes_panel, message_block. intros H Hm.
  rewrite truthy_or_else, Hm, orb_true_r in H.
  destruct (goals_block f) as [g|]; [| discriminate H].
  cbn [mbind option_bind] in H.
  destruct (escapeHtml (message f)) as [e|] eqn:E; [| discriminate H].
  cbn [mbind option_bind] in H. injection H as <-.
  do 3 apply rendered_in_later. apply rendered_in_before. find_rendered.
Qed.

Lemma render_html_notes (f : submission) (n h : string) :
  render_html f n = Some h ->
  (truthy (goals f) = true -> rendered_in (goals f) h)
  /\ (truthy (message f) = true -> rendered_in (message f) h).
Proof.
  unfold render_html. intros H. bind_steps H.
  match goal with Hn : notes_panel f = Some _ |- _ =>
    pose proof (notes_panel_goals _ _ Hn) as Hg;
    pose proof (notes_panel_message _ _ Hn) as Hm
  end.
  split; intros T; [specialize (Hg T) | specialize (Hm T)];
    repeat first [ apply rendered_in_before; assumption | apply rendered_in_later ].
Qed.

Lemma converts_escapeHtml (v : value) :
  converts v -> exists e, escapeHtml v = Some e.
Proof.
  intros [s Hs]. unfold escapeHtml.
  destruct v; simpl in *; try rewrite Hs; simpl; eauto.
Qed.

(** The body is produced whenever the field values convert to text. *)
Lemma render_html_total (f : submission) (n : string) :
  fields_convert f -> exists h, render_html f n = Some h.
Proof.
  intros (H1 & H2 & H3 & H4 & H5 & H6 & H7 & H8).
  apply converts_escapeHtml in H1 as [? E1], H2 as [? E2], H3 as [? E3],
    H4 as [? E4], H5 as [? E5], H6 as [? E6], H7 as [? E7], H8 as [? E8].
  unfold render_html, notes_panel, goals_block, message_block.
  rewrite E1, E2, E3, E4, E5, E6, E7, E8. cbn [mbind option_bind].
  destruct (truthy (or_else (goals f) (message f))),
    (truthy (goals f)), (truthy (message f));
    cbn [mbind option_bind]; eauto.
Qed.

(** C1.  [escapeHtml] leaves no ['<'], ['>'], double quote or apostrophe,
    and every ['&'] of its result starts one of the five character
    references.  The body is the template's literal text with the eight
    user-supplied values (and the timestamp) put in through [escapeHtml]:
    each escaped value is part of the body, every ['&'] of the body starts a
    character reference, and the body has exactly as many ['<'], ['>'] and
    double quotes as the literal text of the template, so none comes from a
    user-supplied value.  The body is produced whenever the values convert
    to text, and it is the body of every mail sent. *)
Theorem html_body_is_escaped :
  (forall v e, escapeHtml v = Some e ->
     amp_ok e = true /\ forall c, markup c -> occ c e = 0)
  /\ (forall f n h, render_html f n = Some h ->
        amp_ok h = true
        /\ (forall c, markup c ->
              occ c h = layout_count c (truthy (goals f)) (truthy (message f)))
        /\ rendered_in (fullName f) h /\ rendered_in (userEmail f) h
        /\ rendered_in (phone f) h /\ rendered_in (experience f) h
        /\ rendered_in (cycleLabel f) h /\ rendered_in (packageLabel f) h
        /\ (truthy (goals f) = true -> rendered_in (goals f) h)
        /\ (truthy (message f) = true -> rendered_in (message f) h))
  /\ (forall f n, fields_convert f -> exists h, render_html f n = Some h)
  /\ (forall w req tr mo, sent_by w req tr mo ->
        render_html (submitted w req) (now w) = Some (html mo)).
Proof.
  split; [| split; [| split]].
  - intros v e H. split; [now apply escapeHtml_amp_ok in H |].
    intros c Hc. now apply (escapeHtml_no_markup c) in H.
  - intros f n h H.
    destruct (render_html_fields f n h H) as (F1 & F2 & F3 & F4 & F5 & F6).
    destruct (render_html_notes f n h H) as (N1 & N2).
    split; [now apply render_html_amp_ok in H |].
    split; [intros c Hc; exact (render_html_occ c f n h Hc H) |].
    tauto.
  - apply render_html_total.
  - intros w req tr mo (_ & sender & h & s & Hr & ->)%sent_by_inv. exact Hr.
Qed.

(** The sample request, whose name holds a script element: the element
    is in the body in escaped form only. *)
Lemma html_body_is_escaped_witness :
  let w := sample_world oauth_env token_ok send_ok in
  let mo := built_mail (OAuth2.GMAIL_SENDER w) w ann in
  sent_by w ann (OAuth2.transporter w (VStr "ya29.token")) mo
  /\ amp_ok (html mo) = true
  /\ occ "<" (html mo) = layout_count "<" true false
  /\ contains "<script>" (html mo) = false
  /\ contains "Ann &lt;script&gt;alert(1)&lt;/script&gt;" (html mo) = true
  /\ contains "Fitness &amp; fun" (html mo) = true.
Proof.
  intros w mo.
  assert (Hs : sent_by w ann (OAuth2.transporter w (VStr "ya29.token")) mo)
    by (left; vm_compute; reflexivity).
  destruct html_body_is_escaped as (_ & Hbody & _ & Hsent).
  specialize (Hsent w ann _ _ Hs).
  destruct (Hbody _ _ _ Hsent) as (Hamp & Hocc & _).
  split; [exact Hs |]. split; [exact Hamp |].
  split; [apply (Hocc "<"%char); now left |].
  repeat split; vm_compute; reflexivity.
Defined.

(** ** Configuration and token *)

Lemma not_configured_unset (w : world) (k : string) :
  not_configured w k -> env_unset (env w !! k) = true.
Proof. now intros [-> | ->]. Qed.

Lemma configured_set (w : world) (k : string) :
  configured w k -> env_unset (env w !! k) = false.
Proof. intros (s & -> & Hs). now apply string_eqb_neq. Qed.

Lemma secrets_missing_true (w : world) :
  not_configured w "GOOGLE_CLIENT_ID" \/ not_configured w "GOOGLE_CLIENT_SECRET"
  \/ not_configured w "GOOGLE_REFRESH_TOKEN" ->
  OAuth2.secrets_missing w = true.
Proof.
  unfold OAuth2.secrets_missing, OAuth2.GOOGLE_CLIENT_ID,
    OAuth2.GOOGLE_CLIENT_SECRET, OAuth2.GOOGLE_REFRESH_TOKEN.
  intros [H | [H | H]]; apply not_configured_unset in H; rewrite H;
    rewrite ?orb_true_r; reflexivity.
Qed.

Lemma secrets_missing_false (w : world) :
  configured w "GOOGLE_CLIENT_ID" -> configured w "GOOGLE_CLIENT_SECRET" ->
  configured w "GOOGLE_REFRESH_TOKEN" ->
  OAuth2.secrets_missing w = false.
Proof.
  unfold OAuth2.secrets_missing, OAuth2.GOOGLE_CLIENT_ID,
    OAuth2.GOOGLE_CLIENT_SECRET, OAuth2.GOOGLE_REFRESH_TOKEN.
  intros H1 H2 H3.
  now rewrite (configured_set _ _ H1), (configured_set _ _ H2), (configured_set _ _ H3).
Qed.

Lemma exchange_fails_mint (w : world) :
  exchange_fails w -> exists e, OAuth2.mint w = inl e.
Proof.
  unfold OAuth2.mint. intros [[e ->] | (r & -> & Hr)]; [now exists e |].
  exists (Error "Error" "Empty access token returned.").
  unfold or_else. now rewrite Hr.
Qed.

Lemma built_mail_eq (sender : string) (w : world) (req : value) (h s : string) :
  render_html (submitted w req) (now w) = Some h ->
  render_subject (submitted w req) = Some s ->
  built_mail sender w req = mailOptions sender w (submitted w req) s h.
Proof. unfold built_mail. now intros -> ->. Qed.

(** C7.  OAuth2 variant: a valid request meets a deployment where the
    client id, the client secret or the refresh token is not set (or is
    empty).  The answer is 500 with the fixed message naming the three
    variables, and the trace is empty: no token exchange, no send. *)
Theorem missing_secrets_stop_before_network (w : world) (req : value) :
  valid w req ->
  not_configured w "GOOGLE_CLIENT_ID" \/ not_configured w "GOOGLE_CLIENT_SECRET"
  \/ not_configured w "GOOGLE_REFRESH_TOKEN" ->
  OAuth2.handler w req
  = ([], {| body := {| ok := false;
                       error := Some "Missing Gmail OAuth env vars. Required: GOOGLE_CLIENT_ID, GOOGLE_CLIENT_SECRET, GOOGLE_REFRESH_TOKEN" |};
            statusCode := 500 |})
  /\ network_calls (fst (OAuth2.handler w req)) = 0.
Proof.
  intros Hv H%secrets_missing_true.
  now rewrite (oauth2_no_secrets w req Hv H).
Qed.

(** The sample request where the refresh token is not set. *)
Lemma missing_secrets_stop_before_network_witness :
  let e : gmap string string :=
    {[ "GOOGLE_CLIENT_ID" := "id"; "GOOGLE_CLIENT_SECRET" := "secret" ]} in
  let w := sample_world e token_ok send_ok in
  OAuth2.handler w ann = ([], res_json (failure OAuth2.env_error) 500)
  /\ network_calls (fst (OAuth2.handler w ann)) = 0.
Proof.
  intros e w.
  apply (missing_secrets_stop_before_network w ann); [reflexivity |].
  right. right. left. reflexivity.
Defined.

(** C6.  OAuth2 variant: a valid request, the three secrets set, and a
    token exchange that throws or gives no token.  The answer is 500 with
    the fixed message "Failed to mint Gmail access token."; the trace is the
    exchange and one error line under the mint label (not the label of a
    send failure); the transporter's send is not called. *)
Theorem mint_failure_stops_before_send (w : world) (req : value) :
  valid w req ->
  configured w "GOOGLE_CLIENT_ID" -> configured w "GOOGLE_CLIENT_SECRET" ->
  configured w "GOOGLE_REFRESH_TOKEN" ->
  exchange_fails w ->
  (exists detail,
     OAuth2.handler w req
     = ([token_exchange w; LogError "❌ Failed to mint Gmail access token:" detail],
        {| body := {| ok := false; error := Some "Failed to mint Gmail access token." |};
           statusCode := 500 |}))
  /\ sends (fst (OAuth2.handler w req)) = 0
  /\ sent_mail (fst (OAuth2.handler w req)) = None.
Proof.
  intros Hv H1 H2 H3 [e He]%exchange_fails_mint.
  pose proof (secrets_missing_false w H1 H2 H3) as Hs.
  rewrite (oauth2_mint_fails w req Hv e Hs He).
  split; [now exists (error_text e) | now split].
Qed.

Ltac show_configured :=
  eexists; split; [vm_compute; reflexivity | discriminate].

(** The exchange gives an empty token, and the exchange throws. *)
Lemma mint_failure_stops_before_send_witness :
  let w1 := sample_world oauth_env token_empty send_ok in
  let w2 := sample_world oauth_env token_fails send_ok in
  (snd (OAuth2.handler w1 ann) = res_json (failure OAuth2.mint_error) 500
   /\ sends (fst (OAuth2.handler w1 ann)) = 0)
  /\ (snd (OAuth2.handler w2 ann) = res_json (failure OAuth2.mint_error) 500
      /\ sends (fst (OAuth2.handler w2 ann)) = 0).
Proof.
  intros w1 w2.
  assert (A1 : configured w1 "GOOGLE_CLIENT_ID") by show_configured.
  assert (A2 : configured w1 "GOOGLE_CLIENT_SECRET") by show_configured.
  assert (A3 : configured w1 "GOOGLE_REFRESH_TOKEN") by show_configured.
  assert (B1 : configured w2 "GOOGLE_CLIENT_ID") by show_configured.
  assert (B2 : configured w2 "GOOGLE_CLIENT_SECRET") by show_configured.
  assert (B3 : configured w2 "GOOGLE_REFRESH_TOKEN") by show_configured.
  split.
  - destruct (mint_failure_stops_before_send w1 ann eq_refl A1 A2 A3)
      as ([d ->] & _); [| now split].
    right. eexists. split; reflexivity.
  - destruct (mint_failure_stops_before_send w2 ann eq_refl B1 B2 B3)
      as ([d ->] & _); [| now split].
    left. eexists. reflexivity.
Defined.

(** ** The send and the reply *)

Lemma error_text_cases (e : js_error) :
  (err_message e <> "" -> error_text e = err_message e)
  /\ (err_message e = "" -> error_text e = err_name e).
Proof.
  unfold error_text, error_to_string. split.
  - intros H. apply string_eqb_neq in H. now rewrite H.
  - intros ->. simpl. now destruct (string_eqb (err_name e) "") eqn:E;
      [apply string_eqb_eq in E |].
Qed.

(** C5, on the code: a send that fails with an error whose message is empty
    is not answered with that message, but with the error's rendering. *)
Lemma send_failure_without_message :
  let w := sample_world smtp_env token_ok (send_fails "") in
  let mo := built_mail (Smtp.SMTP_USER_text w) w ann in
  valid w ann
  /\ sent_mail (fst (Smtp.handler w ann)) = Some (Smtp.transporter w, mo)
  /\ sendMail w (Smtp.transporter w) mo = Some (Error "Error" "")
  /\ snd (Smtp.handler w ann) = res_json (failure "Error") 500
  /\ error (body (snd (Smtp.handler w ann))) <> Some (err_message (Error "Error" "")).
Proof.
  intros w mo. repeat split; try (vm_compute; reflexivity).
  vm_compute. discriminate.
Qed.

(** C5 as amended.  Whenever a variant hands the mail to the transport (the
    request then has passed the validation and, in the OAuth2 variant, the
    secrets test): if the send succeeds the answer is exactly [{ok: true}]
    with status 200; if it throws, nothing escapes and the send is not
    tried again: the answer is 500 with [{ok: false, error}], where [error]
    is the error's message when that is not empty and the error's rendering
    [String(err)] (here its name) when it is empty. *)
Theorem send_outcome_decides_reply (w : world) (req : value)
    (tr : transport) (mo : mail_options) :
  (sent_mail (fst (OAuth2.handler w req)) = Some (tr, mo) ->
     valid w req /\ OAuth2.secrets_missing w = false
     /\ sends (fst (OAuth2.handler w req)) = 1
     /\ (sendMail w tr mo = None ->
         snd (OAuth2.handler w req)
         = {| body := {| ok := true; error := None |}; statusCode := 200 |})
     /\ (forall e, sendMail w tr mo = Some e ->
         snd (OAuth2.handler w req)
         = {| body := {| ok := false; error := Some (error_text e) |}; statusCode := 500 |}
         /\ (err_message e <> "" -> error_text e = err_message e)
         /\ (err_message e = "" -> error_text e = error_to_string e
                                   /\ error_to_string e = err_name e)))
  /\ (sent_mail (fst (Smtp.handler w req)) = Some (tr, mo) ->
        valid w req
        /\ sends (fst (Smtp.handler w req)) = 1
        /\ (sendMail w tr mo = None ->
            snd (Smtp.handler w req)
            = {| body := {| ok := true; error := None |}; statusCode := 200 |})
        /\ (forall e, sendMail w tr mo = Some e ->
            snd (Smtp.handler w req)
            = {| body := {| ok := false; error := Some (error_text e) |}; statusCode := 500 |}
            /\ (err_message e <> "" -> error_text e = err_message e)
            /\ (err_message e = "" -> error_text e = error_to_string e
                                      /\ error_to_string e = err_name e))).
Proof.
  assert (T : forall e,
             (err_message e <> "" -> error_text e = err_message e)
             /\ (err_message e = "" -> error_text e = error_to_string e
                                       /\ error_to_string e = err_name e)).
  { intros e. destruct (error_text_cases e) as [A B]. split; [exact A |].
    intros E.
    assert (X : error_text e = error_to_string e)
      by (unfold error_text; now rewrite E).
    split; [exact X | rewrite <- X; exact (B E)]. }
  split.
  - intros (Hv & Hs & tok & h & s & Hm & Hr & Hsub & -> & ->)%oauth2_sent_inv.
    rewrite (oauth2_sends w req Hv tok h s Hs Hm Hr Hsub).
    split; [exact Hv |]. split; [exact Hs |].
    destruct (sendMail w _ _) as [e' |] eqn:E.
    + split; [reflexivity |]. split; [discriminate |].
      intros e [= <-]. split; [reflexivity | apply T].
    + split; [reflexivity |]. split; [reflexivity |]. intros e; discriminate.
  - intros (Hv & h & s & Hr & Hsub & -> & ->)%smtp_sent_inv.
    rewrite (smtp_sends w req Hv h s Hr Hsub).
    split; [exact Hv |].
    destruct (sendMail w _ _) as [e' |] eqn:E.
    + split; [reflexivity |]. split; [discriminate |].
      intros e [= <-]. split; [reflexivity | apply T].
    + split; [reflexivity |]. split; [reflexivity |]. intros e; discriminate.
Qed.

(** A send that succeeds, and one that fails with a message. *)
Lemma send_outcome_decides_reply_witness :
  let w1 := sample_world smtp_env token_ok send_ok in
  let w2 := sample_world smtp_env token_ok (send_fails "Invalid login") in
  snd (Smtp.handler w1 ann) = res_json success 200
  /\ snd (Smtp.handler w2 ann) = res_json (failure "Invalid login") 500
  /\ sends (fst (Smtp.handler w2 ann)) = 1.
Proof.
  intros w1 w2.
  assert (S1 : sent_mail (fst (Smtp.handler w1 ann))
               = Some (Smtp.transporter w1, built_mail (Smtp.SMTP_USER_text w1) w1 ann))
    by (vm_compute; reflexivity).
  assert (S2 : sent_mail (fst (Smtp.handler w2 ann))
               = Some (Smtp.transporter w2, built_mail (Smtp.SMTP_USER_text w2) w2 ann))
    by (vm_compute; reflexivity).
  destruct (send_outcome_decides_reply w1 ann (Smtp.transporter w1)
              (built_mail (Smtp.SMTP_USER_text w1) w1 ann)) as [_ H1].
  destruct (send_outcome_decides_reply w2 ann (Smtp.transporter w2)
              (built_mail (Smtp.SMTP_USER_text w2) w2 ann)) as [_ H2].
  destruct (H1 S1) as (_ & _ & Hok & _).
  destruct (H2 S2) as (_ & Hone & _ & Hfail).
  split; [apply Hok; reflexivity |].
  split; [| exact Hone].
  destruct (Hfail (Error "Error" "Invalid login") eq_refl) as [-> _]. reflexivity.
Defined.

(** ** Missing transport configuration *)




(** ** The handlers on sample requests *)

(** A value that cannot be converted to text ends in the outer [catch]:
    500 with the [TypeError]'s message; the OAuth2 variant has already
    exchanged the token by then. *)
Example unconvertible_field :
  let req := wrapped (("experience", VObj [("toString", VNull)]) :: ann_props) in
  let w := sample_world oauth_env token_ok send_ok in
  OAuth2.handler w req
  = ([token_exchange w;
      LogError send_failed_label "Cannot convert object to primitive value"],
     res_json (failure "Cannot convert object to primitive value") 500)
  /\ Smtp.handler w req
     = ([LogError send_failed_label "Cannot convert object to primitive value"],
        res_json (failure "Cannot convert object to primitive value") 500).
Proof. split; vm_compute; reflexivity. Qed.

Example subject_sample :
  render_subject (read_fields ann)
  = Some "SBA Booking Request — Ann <script>alert(1)</script> — cycle-1".
Proof. reflexivity. Qed.

Example oauth2_trace_sample :
  let w := sample_world oauth_env token_ok send_ok in
  fst (OAuth2.handler w ann)
  = [TokenExchange "id" "secret" "refresh";
     SendMail (OAuth2.transporter w (VStr "ya29.token"))
              (built_mail "silvaboxingacademy@gmail.com" w ann);
     Log "✅ SBA booking email sent (Gmail OAuth2)."].
Proof. vm_compute; reflexivity. Qed.

(** * Further properties of the code *)

(** ** [escapeHtml]: what the five replacements keep *)

Lemma escape_char_head (a b : ascii) (r1 r2 : string) :
  escape_char a ++ r1 = escape_char b ++ r2 -> a = b /\ r1 = r2.
Proof.
  unfold escape_char, ascii_eqb.
  repeat case_bool_decide; subst; cbv [String.append];
    intros Heq; injection Heq; intros; subst; try congruence; auto.
Qed.

Lemma escape_char_nonempty (a : ascii) (r : string) : escape_char a ++ r <> "".
Proof.
  unfold escape_char, ascii_eqb.
  repeat case_bool_decide; cbv [String.append]; discriminate.
Qed.

(** X1.  [escapeHtml] loses nothing: two texts with the same escaped form are
    the same text. *)
Theorem escape_text_injective (s1 s2 : string) :
  escape_text s1 = escape_text s2 -> s1 = s2.
Proof.
  rewrite !escape_text_chars. revert s2.
  induction s1 as [|a s1 IH]; intros [|b s2]; simpl; intros H.
  - reflexivity.
  - symmetry in H. now apply escape_char_nonempty in H.
  - now apply escape_char_nonempty in H.
  - apply escape_char_head in H as [-> H]. now rewrite (IH s2 H).
Qed.

(** Two ways of writing one text. *)
Lemma escape_text_injective_witness : "a<b & c" = "a<" ++ "b & c".
Proof. apply escape_text_injective. reflexivity. Defined.

(** X2.  Escaping a text piece by piece is escaping the whole text. *)
Theorem escape_text_app (a b : string) :
  escape_text (a ++ b) = escape_text a ++ escape_text b.
Proof. rewrite !escape_text_chars. apply flat_map_string_app. Qed.

Lemma length_append (a b : string) :
  String.length (a ++ b) = String.length a + String.length b.
Proof.
  induction a as [|x a IH]; [reflexivity |].
  rewrite append_cons. simpl. now rewrite IH.
Qed.

Lemma escape_char_length (x : ascii) :
  (special x = false /\ escape_char x = String x "")
  \/ (special x = true /\ 4 <= String.length (escape_char x) <= 6).
Proof.
  unfold special, escape_char, ascii_eqb.
  repeat case_bool_decide; subst; simpl; auto with lia.
Qed.

Lemma escape_chars_grow (s : string) :
  String.length s <= String.length (flat_map_string escape_char s).
Proof.
  induction s as [|x s IH]; simpl; [lia |].
  rewrite length_append.
  destruct (escape_char_length x) as [[_ ->] | [_ ?]]; simpl; lia.
Qed.

(** X3.  A text comes out of [escapeHtml] unchanged exactly when it has none of
    the five characters. *)
Theorem escape_text_fixes_plain_text (s : string) :
  escape_text s = s <-> plain_text s = true.
Proof.
  rewrite escape_text_chars. split.
  - intros H.
    assert (L : String.length (flat_map_string escape_char s) = String.length s)
      by now rewrite H.
    clear H. induction s as [|x s IH]; simpl in *; [reflexivity |].
    rewrite length_append in L. pose proof (escape_chars_grow s) as G.
    destruct (escape_char_length x) as [[Hx E] | [Hx ?]]; rewrite Hx; simpl.
    + rewrite E in L. simpl in L. apply IH. lia.
    + lia.
  - induction s as [|x s IH]; simpl; [reflexivity |].
    intros [Hx Hs]%andb_true_iff. apply negb_true_iff in Hx.
    destruct (escape_char_length x) as [[_ ->] | [Hx' _]]; [| congruence].
    rewrite append_cons, append_nil. now rewrite (IH Hs).
Qed.

(** X4.  The escaped text is at least as long as the text and at most six
    times as long. *)
Theorem escape_text_length (s : string) :
  String.length s <= String.length (escape_text s) <= 6 * String.length s.
Proof.
  rewrite escape_text_chars.
  induction s as [|x s IH]; simpl; [lia |].
  rewrite length_append.
  destruct (escape_char_length x) as [[_ ->] | [_ ?]]; simpl; lia.
Qed.

(** ** Every run of a handler *)

Lemma oauth2_run_handler (w : world) (req : value) :
  oauth2_run w req (OAuth2.handler w req).
Proof.
  destruct (valid_or_not w req) as [Hv | Hv];
    [| rewrite oauth2_rejects by exact Hv; now constructor].
  destruct (OAuth2.secrets_missing w) eqn:Hs;
    [rewrite (oauth2_no_secrets w req Hv Hs); now constructor |].
  destruct (OAuth2.mint w) as [e | tok] eqn:Hm;
    [rewrite (oauth2_mint_fails w req Hv e Hs Hm); now constructor |].
  destruct (render_html (submitted w req) (now w)) as [h |] eqn:Hr;
    [| rewrite (oauth2_render_fails w req Hv tok Hs Hm Hr);
       now apply O_unconvertible with tok].
  destruct (render_subject_total _ _ _ Hr) as [s Hsub].
  rewrite (oauth2_sends w req Hv tok h s Hs Hm Hr Hsub).
  rewrite <- (built_mail_eq _ w req h s Hr Hsub).
  destruct (sendMail w _ _) as [err |] eqn:E.
  - apply O_send_failed; congruence.
  - apply O_sent; congruence.
Qed.

Lemma smtp_run_handler (w : world) (req : value) :
  smtp_run w req (Smtp.handler w req).
Proof.
  destruct (valid_or_not w req) as [Hv | Hv];
    [| rewrite smtp_rejects by exact Hv; now constructor].
  destruct (render_html (submitted w req) (now w)) as [h |] eqn:Hr;
    [| rewrite (smtp_render_fails w req Hv Hr); now constructor].
  destruct (render_subject_total _ _ _ Hr) as [s Hsub].
  rewrite (smtp_sends w req Hv h s Hr Hsub).
  rewrite <- (built_mail_eq _ w req h s Hr Hsub).
  destruct (sendMail w _ _) as [err |] eqn:E.
  - apply S_send_failed; congruence.
  - apply S_sent; congruence.
Qed.

(** Case analysis on the run of a handler that the goal mentions. *)
Ltac oauth2_runs w req :=
  generalize (oauth2_run_handler w req);
  generalize (OAuth2.handler w req);
  let out := fresh "out" in let R := fresh "R" in
  intros out R; destruct R.

Ltac smtp_runs w req :=
  generalize (smtp_run_handler w req);
  generalize (Smtp.handler w req);
  let out := fresh "out" in let R := fresh "R" in
  intros out R; destruct R.

(** X5.  Whatever the request and the deployment, the answer is [{ok: true}]
    with status 200, or [{ok: false, error}] with status 400 or 500. *)
Theorem responses_well_formed (w : world) (req : value) :
  well_formed (snd (OAuth2.handler w req)) /\ well_formed (snd (Smtp.handler w req)).
Proof.
  split.
  - oauth2_runs w req; simpl;
      first [ left; split; reflexivity
            | right; split; [auto | eexists; reflexivity] ].
  - smtp_runs w req; simpl;
      first [ left; split; reflexivity
            | right; split; [auto | eexists; reflexivity] ].
Qed.

(** X6.  No run sends twice or exchanges the token twice; the OAuth2 variant
    sends only after the exchange, which then is the first outside call;
    the SMTP variant never exchanges a token. *)
Theorem at_most_one_send (w : world) (req : value) :
  (sends (fst (OAuth2.handler w req)) <= 1
   /\ exchanges (fst (OAuth2.handler w req)) <= 1
   /\ (sends (fst (OAuth2.handler w req)) = 1 ->
       exists rest, fst (OAuth2.handler w req) = token_exchange w :: rest))
  /\ (sends (fst (Smtp.handler w req)) <= 1
      /\ exchanges (fst (Smtp.handler w req)) = 0).
Proof.
  split.
  - oauth2_runs w req; cbn; repeat split; try lia; try discriminate; eauto.
  - smtp_runs w req; cbn; split; lia.
Qed.

(** X7.  The answer is 200 exactly when the mail was handed to the transport
    and the transport accepted it. *)
Theorem success_means_accepted (w : world) (req : value) :
  (statusCode (snd (OAuth2.handler w req)) = 200%Z
   <-> exists tr mo, sent_mail (fst (OAuth2.handler w req)) = Some (tr, mo)
                    /\ sendMail w tr mo = None)
  /\ (statusCode (snd (Smtp.handler w req)) = 200%Z
      <-> exists tr mo, sent_mail (fst (Smtp.handler w req)) = Some (tr, mo)
                       /\ sendMail w tr mo = None).
Proof.
  split.
  - oauth2_runs w req; cbn; (split; [intros E | intros (tr & mo & E & A)]);
      try discriminate; eauto; injection E as <- <-; congruence.
  - smtp_runs w req; cbn; (split; [intros E | intros (tr & mo & E & A)]);
      try discriminate; eauto; injection E as <- <-; congruence.
Qed.

(** X8.  What is logged: a 200 has the one success line and no error line; a
    400 logs nothing; a 500 has exactly one error line, except the 500 of
    the missing OAuth2 secrets, which logs nothing. *)
Theorem log_lines_by_status (w : world) (req : value) :
  (statusCode (snd (OAuth2.handler w req)) = 200%Z ->
     log_lines (fst (OAuth2.handler w req)) = 1
     /\ error_lines (fst (OAuth2.handler w req)) = 0)
  /\ (statusCode (snd (OAuth2.handler w req)) = 400%Z -> fst (OAuth2.handler w req) = [])
  /\ (statusCode (snd (OAuth2.handler w req)) = 500%Z ->
        (OAuth2.secrets_missing w = true /\ fst (OAuth2.handler w req) = [])
        \/ (OAuth2.secrets_missing w = false
            /\ error_lines (fst (OAuth2.handler w req)) = 1
            /\ log_lines (fst (OAuth2.handler w req)) = 0))
  /\ (statusCode (snd (Smtp.handler w req)) = 200%Z ->
        log_lines (fst (Smtp.handler w req)) = 1
        /\ error_lines (fst (Smtp.handler w req)) = 0)
  /\ (statusCode (snd (Smtp.handler w req)) = 400%Z -> fst (Smtp.handler w req) = [])
  /\ (statusCode (snd (Smtp.handler w req)) = 500%Z ->
        error_lines (fst (Smtp.handler w req)) = 1
        /\ log_lines (fst (Smtp.handler w req)) = 0).
Proof.
  split; [| split; [| split; [| split; [| split]]]].
  - oauth2_runs w req; cbn; intros E; try discriminate E; now split.
  - oauth2_runs w req; cbn; intros E; try discriminate E; reflexivity.
  - oauth2_runs w req; cbn; intros E; try discriminate E; auto.
  - smtp_runs w req; cbn; intros E; try discriminate E; now split.
  - smtp_runs w req; cbn; intros E; try discriminate E; reflexivity.
  - smtp_runs w req; cbn; intros E; try discriminate E; now split.
Qed.

(** ** Bodies that are not an object *)

Lemma no_property_all_missing (p : value) :
  (forall k, get p k = VUndefined) -> missing_fields p = all_five.
Proof. intros H. unfold missing_fields. now rewrite !H. Qed.

Lemma payload_of_not_object (b : value) :
  is_plain_object b = false -> forall k, get (payload_of b) k = VUndefined.
Proof.
  intros H k. unfold payload_of, or_else.
  destruct b; try discriminate H; simpl;
    repeat match goal with
           | |- context [if ?c then _ else _] => destruct c
           end; reflexivity.
Qed.

(** X9.  A body that is, or decodes to, anything but a plain object (a text
    inside the text, a number, a boolean, [null], [undefined], an array) has
    no field at all: the answer is the 400 that names all five fields, and
    nothing outside is called. *)
Theorem non_object_body_rejected (w : world) (req : value) :
  is_plain_object (parse_body w req) = false ->
  let reply :=
    ([], res_json (failure "Missing required fields: fullName, email, phone, cycle, package") 400) in
  OAuth2.handler w req = reply /\ Smtp.handler w req = reply.
Proof.
  intros H reply.
  assert (Hm : missing_fields (payload w req) = all_five)
    by (apply no_property_all_missing, payload_of_not_object, H).
  assert (Hne : missing_fields (payload w req) <> []) by now rewrite Hm.
  rewrite oauth2_rejects, smtp_rejects by exact Hne. now rewrite Hm.
Qed.

(** An array as body. *)
Lemma non_object_body_rejected_witness :
  let w := sample_world smtp_env token_ok send_ok in
  snd (Smtp.handler w (VArr [ann]))
  = res_json (failure "Missing required fields: fullName, email, phone, cycle, package") 400.
Proof.
  intros w.
  destruct (non_object_body_rejected w (VArr [ann]) eq_refl) as [_ ->]. reflexivity.
Defined.

(** ** Fields of a request that passed the validation *)

Lemma valid_supplied (p : value) :
  missing_fields p = [] ->
  truthy (get p "fullName") || truthy (get p "name") = true
  /\ truthy (get p "email") = true
  /\ truthy (get p "phone") || truthy (get p "whatsapp") = true
  /\ truthy (get p "cycle") || truthy (get p "cycleLabel") = true
  /\ truthy (get p "package") || truthy (get p "packageLabel") = true.
Proof.
  unfold missing_fields, push_if.
  destruct (truthy (get p "fullName")), (truthy (get p "name")),
    (truthy (get p "email")); simpl; try discriminate;
    try (now destruct (_ && _), (_ && _), (_ && _));
    destruct (truthy (get p "phone")), (truthy (get p "whatsapp")); simpl;
    try discriminate; try (now destruct (_ && _), (_ && _));
    destruct (truthy (get p "cycle")), (truthy (get p "cycleLabel")); simpl;
    try discriminate; try (now destruct (_ && _));
    destruct (truthy (get p "package")), (truthy (get p "packageLabel")); simpl;
    try discriminate; auto.
Qed.

Lemma or_else_chain (a b d : value) :
  truthy a || truthy b = true ->
  (or_else a (or_else b d) = a \/ or_else a (or_else b d) = b)
  /\ truthy (or_else a (or_else b d)) = true.
Proof.
  unfold or_else. destruct (truthy a) eqn:A; [auto |].
  destruct (truthy b) eqn:B; [auto | discriminate].
Qed.

Lemma valid_fields_are_supplied_aux (w : world) (req : value) :
  valid w req ->
  truthy (fullName (submitted w req)) = true
  /\ truthy (cycleLabel (submitted w req)) = true.
Proof.
  intros Hv. destruct (valid_supplied _ Hv) as (Hn & _ & _ & Hc & _).
  unfold submitted, read_fields. cbn [fullName cycleLabel].
  rewrite orb_comm in Hc.
  destruct (or_else_chain _ _ (VStr "Unknown") Hn) as [_ ?].
  destruct (or_else_chain _ _ (VStr "Unknown") Hc) as [_ ?].
  now split.
Qed.

(** X10.  For a request that passed the validation no default is shown in place
    of a name, an address, a phone, a cycle label or a package label: each
    is a truthy value taken from the payload. *)
Theorem valid_fields_are_supplied (w : world) (req : value) :
  valid w req ->
  let p := payload w req in
  let f := submitted w req in
  (truthy (fullName f) = true /\ (fullName f = get p "fullName" \/ fullName f = get p "name"))
  /\ (truthy (userEmail f) = true /\ userEmail f = get p "email")
  /\ (truthy (phone f) = true /\ (phone f = get p "phone" \/ phone f = get p "whatsapp"))
  /\ (truthy (cycleLabel f) = true
      /\ (cycleLabel f = get p "cycleLabel" \/ cycleLabel f = get p "cycle"))
  /\ (truthy (packageLabel f) = true
      /\ (packageLabel f = get p "packageLabel" \/ packageLabel f = get p "package")).
Proof.
  intros Hv p f. destruct (valid_supplied p Hv) as (Hn & He & Hp & Hc & Hk).
  subst f. unfold submitted. fold p. unfold read_fields.
  cbn [fullName userEmail phone cycleLabel packageLabel].
  rewrite orb_comm in Hc, Hk.
  destruct (or_else_chain _ _ (VStr "Unknown") Hn) as [? ?].
  destruct (or_else_chain _ _ (VStr "Unknown") Hp) as [? ?].
  destruct (or_else_chain _ _ (VStr "Unknown") Hc) as [? ?].
  destruct (or_else_chain _ _ (VStr "Unknown") Hk) as [? ?].
  repeat split; auto; unfold or_else; now rewrite He.
Qed.

(** The sample request: the phone is the WhatsApp number, the label the
    cycle. *)
Lemma valid_fields_are_supplied_witness :
  let w := sample_world smtp_env token_ok send_ok in
  truthy (phone (submitted w ann)) = true
  /\ truthy (cycleLabel (submitted w ann)) = true.
Proof.
  intros w.
  destruct (valid_fields_are_supplied w ann eq_refl) as (_ & _ & [Hp _] & [Hc _] & _).
  now split.
Defined.

(** ** Values that do not convert to text *)








(** ** Payloads of plain values *)

Lemma primitive_converts (v : value) : primitive v = true -> converts v.
Proof.
  unfold converts. destruct v as [| |[]| | | |]; simpl; try discriminate; eauto.
Qed.

Lemma own_primitive (k : string) (props : list (string * value)) :
  Forall (fun kv => primitive (snd kv) = true) props ->
  primitive (default VUndefined (own k props)) = true.
Proof.
  induction 1 as [|[k' v] props Hv _ IH]; [reflexivity |].
  simpl. now destruct (string_eqb k k').
Qed.

Lemma or_else_primitive (a b : value) :
  primitive a = true -> primitive b = true -> primitive (or_else a b) = true.
Proof. unfold or_else. now destruct (truthy a). Qed.

Lemma primitive_fields_convert (props : list (string * value)) :
  Forall (fun kv => primitive (snd kv) = true) props ->
  fields_convert (read_fields (VObj props)).
Proof.
  intros H. unfold fields_convert, read_fields, get.
  cbn [cycleLabel packageLabel fullName userEmail phone experience goals message].
  repeat split; apply primitive_converts;
    repeat first [ apply or_else_primitive | now apply own_primitive | reflexivity ].
Qed.

(** X12.  A valid request whose payload is an object of plain values (text,
    numbers, booleans, [null]) always reaches the transport: the SMTP variant
    hands the mail over exactly once, and so does the OAuth2 variant once
    the token is minted. *)
Theorem plain_payload_reaches_transport (w : world) (req : value)
    (props : list (string * value)) :
  valid w req ->
  payload w req = VObj props ->
  Forall (fun kv => primitive (snd kv) = true) props ->
  (sent_mail (fst (Smtp.handler w req))
   = Some (Smtp.transporter w, built_mail (Smtp.SMTP_USER_text w) w req)
   /\ sends (fst (Smtp.handler w req)) = 1)
  /\ (forall accessToken,
        OAuth2.secrets_missing w = false -> OAuth2.mint w = inr accessToken ->
        sent_mail (fst (OAuth2.handler w req))
        = Some (OAuth2.transporter w accessToken,
                built_mail (OAuth2.GMAIL_SENDER w) w req)
        /\ sends (fst (OAuth2.handler w req)) = 1).
Proof.
  intros Hv Hp Hprim.
  assert (Hc : fields_convert (submitted w req))
    by (unfold submitted; rewrite Hp; now apply primitive_fields_convert).
  destruct (render_html_total _ (now w) Hc) as [h Hr].
  destruct (render_subject_total _ _ _ Hr) as [s Hs]. split.
  - rewrite (smtp_sends w req Hv h s Hr Hs), (built_mail_eq _ w req h s Hr Hs).
    now destruct (sendMail w _ _).
  - intros tok Hsec Hm.
    rewrite (oauth2_sends w req Hv tok h s Hsec Hm Hr Hs),
      (built_mail_eq _ w req h s Hr Hs).
    now destruct (sendMail w _ _).
Qed.

(** The sample request, whose values are all text. *)
Lemma plain_payload_reaches_transport_witness :
  let w := sample_world smtp_env token_ok (send_fails "Invalid login") in
  sends (fst (Smtp.handler w ann)) = 1.
Proof.
  intros w.
  assert (P : Forall (fun kv => primitive (snd kv) = true) ann_props)
    by (repeat constructor).
  destruct (plain_payload_reaches_transport w ann ann_props eq_refl eq_refl P)
    as [[_ H] _].
  exact H.
Defined.

(** ** The envelope of a sent mail *)

Lemma env_or_cases (w : world) (k d : string) :
  (not_configured w k -> env_or w k d = d)
  /\ (forall s, env w !! k = Some s -> s <> "" -> env_or w k d = s).
Proof.
  unfold env_or. split.
  - intros H%not_configured_unset. now rewrite H.
  - intros s E Hs. rewrite E. simpl. apply string_eqb_neq in Hs. now rewrite Hs.
Qed.

(** X13.  The recipient never comes from the request: in both variants it is
    [SBA_ADMIN_EMAIL] when that is set and not empty, and the academy's
    address otherwise. *)
Theorem recipient_from_environment (w : world) (req : value)
    (tr : transport) (mo : mail_options) :
  sent_by w req tr mo ->
  (not_configured w "SBA_ADMIN_EMAIL" -> to mo = "silvaboxingacademy@gmail.com")
  /\ (forall s, env w !! "SBA_ADMIN_EMAIL" = Some s -> s <> "" -> to mo = s).
Proof.
  intros (_ & sender & h & s & _ & ->)%sent_by_inv.
  cbn [mailOptions to]. apply env_or_cases.
Qed.

(** A deployment with its own recipient. *)
Lemma recipient_from_environment_witness :
  let w := sample_world (<["SBA_ADMIN_EMAIL" := "desk@example.org"]> smtp_env)
                        token_ok send_ok in
  to (built_mail (Smtp.SMTP_USER_text w) w ann) = "desk@example.org".
Proof.
  intros w.
  assert (H : sent_by w ann (Smtp.transporter w)
                      (built_mail (Smtp.SMTP_USER_text w) w ann))
    by (right; vm_compute; reflexivity).
  destruct (recipient_from_environment w ann _ _ H) as [_ Hs].
  apply Hs; [vm_compute; reflexivity | discriminate].
Defined.

(** X14.  The sender address.  OAuth2 variant: [GMAIL_SENDER] when set and not
    empty, the academy's address otherwise.  SMTP variant: [SMTP_USER] as
    it is, and the text [undefined] when it is not set. *)
Theorem sender_from_environment (w : world) (req : value)
    (tr : transport) (mo : mail_options) :
  (sent_mail (fst (OAuth2.handler w req)) = Some (tr, mo) ->
     (not_configured w "GMAIL_SENDER" ->
        from mo = q "SBA Website" ++ " <silvaboxingacademy@gmail.com>")
     /\ (forall s, env w !! "GMAIL_SENDER" = Some s -> s <> "" ->
           from mo = q "SBA Website" ++ " <" ++ s ++ ">"))
  /\ (sent_mail (fst (Smtp.handler w req)) = Some (tr, mo) ->
        (env w !! "SMTP_USER" = None -> from mo = q "SBA Website" ++ " <undefined>")
        /\ (forall s, env w !! "SMTP_USER" = Some s ->
              from mo = q "SBA Website" ++ " <" ++ s ++ ">")).
Proof.
  split.
  - intros (_ & _ & tok & h & s & _ & _ & _ & _ & ->)%oauth2_sent_inv.
    cbn [mailOptions from]. unfold OAuth2.GMAIL_SENDER.
    destruct (env_or_cases w "GMAIL_SENDER" "silvaboxingacademy@gmail.com") as [Hd Hs].
    split.
    + intros H. now rewrite (Hd H).
    + intros s' E Hne. now rewrite (Hs s' E Hne).
  - intros (_ & h & s & _ & _ & _ & ->)%smtp_sent_inv.
    cbn [mailOptions from]. unfold Smtp.SMTP_USER_text.
    split; [now intros -> | now intros s' ->].
Qed.

(** No [SMTP_USER]: the sample request leaves with an undefined sender. *)
Lemma sender_from_environment_witness :
  let w := sample_world ∅ token_ok send_ok in
  from (built_mail (Smtp.SMTP_USER_text w) w ann) = q "SBA Website" ++ " <undefined>".
Proof.
  intros w.
  assert (H : sent_mail (fst (Smtp.handler w ann))
              = Some (Smtp.transporter w, built_mail (Smtp.SMTP_USER_text w) w ann))
    by (vm_compute; reflexivity).
  destruct (sender_from_environment w ann (Smtp.transporter w)
              (built_mail (Smtp.SMTP_USER_text w) w ann)) as [_ Hs].
  destruct (Hs H) as [Hu _]. now apply Hu.
Defined.

(** X15.  The OAuth2 variant sends only with the token the exchange returned,
    which is truthy, and with the three secrets, which are set and not empty. *)
Theorem sent_with_minted_token (w : world) (req : value)
    (tr : transport) (mo : mail_options) :
  sent_mail (fst (OAuth2.handler w req)) = Some (tr, mo) ->
  exists tokenResponse clientId clientSecret refreshToken,
    OAuth2.exchange w = inr tokenResponse
    /\ truthy (get_opt tokenResponse "token") = true
    /\ env w !! "GOOGLE_CLIENT_ID" = Some clientId /\ clientId <> ""
    /\ env w !! "GOOGLE_CLIENT_SECRET" = Some clientSecret /\ clientSecret <> ""
    /\ env w !! "GOOGLE_REFRESH_TOKEN" = Some refreshToken /\ refreshToken <> ""
    /\ tr = GmailOAuth2 (OAuth2.GMAIL_SENDER w) clientId clientSecret refreshToken
                        (get_opt tokenResponse "token").
Proof.
  intros (_ & Hs & tok & h & s & Hm & _ & _ & -> & _)%oauth2_sent_inv.
  unfold OAuth2.mint in Hm.
  destruct (OAuth2.exchange w) as [e | r] eqn:Ex; [discriminate Hm |].
  unfold or_else in Hm.
  destruct (truthy (get_opt r "token")) eqn:T; simpl in Hm.
  2: { discriminate Hm. }
  rewrite T in Hm. simpl in Hm. injection Hm as <-.
  unfold OAuth2.secrets_missing, OAuth2.transporter in *.
  apply orb_false_iff in Hs as [[H1 H2]%orb_false_iff H3].
  unfold OAuth2.GOOGLE_CLIENT_ID, OAuth2.GOOGLE_CLIENT_SECRET,
    OAuth2.GOOGLE_REFRESH_TOKEN in *.
  destruct (env w !! "GOOGLE_CLIENT_ID") as [a |]; [| discriminate H1].
  destruct (env w !! "GOOGLE_CLIENT_SECRET") as [b |]; [| discriminate H2].
  destruct (env w !! "GOOGLE_REFRESH_TOKEN") as [c |]; [| discriminate H3].
  simpl in *. apply string_eqb_neq in H1, H2, H3.
  exists r, a, b, c. repeat split; auto.
Qed.

(** The sample deployment, whose exchange returns a token. *)
Lemma sent_with_minted_token_witness :
  let w := sample_world oauth_env token_ok send_ok in
  exists tokenResponse, OAuth2.exchange w = inr tokenResponse
                        /\ truthy (get_opt tokenResponse "token") = true.
Proof.
  intros w.
  assert (H : sent_mail (fst (OAuth2.handler w ann))
              = Some (OAuth2.transporter w (VStr "ya29.token"),
                      built_mail (OAuth2.GMAIL_SENDER w) w ann))
    by (vm_compute; reflexivity).
  destruct (sent_with_minted_token w ann _ _ H) as (r & _ & _ & _ & Hx & Ht & _).
  now exists r.
Defined.

(** ** The subject line *)

Lemma escapeHtml_truthy (v : value) (s : string) :
  truthy v = true -> ToString v = Some s -> escapeHtml v = Some (escape_text s).
Proof.
  unfold escapeHtml. intros T H.
  destruct v; try discriminate T; cbn [nullish_or]; now rewrite H.
Qed.

(** X16.  The subject of a sent mail carries the name and the cycle label as
    they are, not escaped, while the body carries the same two texts
    escaped. *)
Theorem subject_is_not_escaped (w : world) (req : value)
    (tr : transport) (mo : mail_options) :
  sent_by w req tr mo ->
  exists name label,
    ToString (fullName (submitted w req)) = Some name
    /\ ToString (cycleLabel (submitted w req)) = Some label
    /\ subject mo = "SBA Booking Request — " ++ name ++ " — " ++ label
    /\ escapeHtml (fullName (submitted w req)) = Some (escape_text name)
    /\ escapeHtml (cycleLabel (submitted w req)) = Some (escape_text label)
    /\ rendered_in (fullName (submitted w req)) (html mo)
    /\ rendered_in (cycleLabel (submitted w req)) (html mo).
Proof.
  intros H.
  assert (Hs : exists sender h s,
             valid w req
             /\ render_html (submitted w req) (now w) = Some h
             /\ render_subject (submitted w req) = Some s
             /\ mo = mailOptions sender w (submitted w req) s h).
  { destruct H as [H | H].
    - apply oauth2_sent_inv in H as (Hv & _ & tok & h & s & _ & Hr & Hs & _ & ->).
      now exists (OAuth2.GMAIL_SENDER w), h, s.
    - apply smtp_sent_inv in H as (Hv & h & s & Hr & Hs & _ & ->).
      now exists (Smtp.SMTP_USER_text w), h, s. }
  destruct Hs as (sender & h & s & Hv & Hr & Hs & ->).
  destruct (valid_fields_are_supplied_aux w req Hv) as (Tn & Tc).
  destruct (render_html_fields _ _ _ Hr) as (Rc & _ & Rn & _).
  unfold render_subject in Hs.
  destruct (ToString (fullName (submitted w req))) as [name |] eqn:En;
    [| discriminate Hs].
  destruct (ToString (cycleLabel (submitted w req))) as [label |] eqn:Ec;
    [| discriminate Hs].
  cbn [mbind option_bind] in Hs. injection Hs as <-.
  exists name, label. cbn [mailOptions subject html].
  repeat split; auto using escapeHtml_truthy.
Qed.

(** The sample request over SMTP. *)
Lemma subject_is_not_escaped_witness :
  let w := sample_world smtp_env token_ok send_ok in
  let mo := built_mail (Smtp.SMTP_USER_text w) w ann in
  exists name label,
    subject mo = "SBA Booking Request — " ++ name ++ " — " ++ label
    /\ escapeHtml (fullName (submitted w ann)) = Some (escape_text name).
Proof.
  intros w mo.
  assert (H : sent_by w ann (Smtp.transporter w) mo)
    by (right; vm_compute; reflexivity).
  destruct (subject_is_not_escaped w ann _ _ H)
    as (name & label & _ & _ & Hs & He & _).
  now exists name, label.
Defined.

(** ** The log of a failed token exchange *)

(** X17.  When the exchange fails the answer keeps to its fixed text, and the
    cause goes to the error log only: the thrown error's text, or
    "Empty access token returned." when the response has no token. *)
Theorem mint_failure_logged (w : world) (req : value) :
  valid w req -> OAuth2.secrets_missing w = false ->
  (forall e, OAuth2.exchange w = inl e ->
     OAuth2.handler w req
     = ([token_exchange w; LogError mint_failed_label (error_text e)],
        res_json (failure "Failed to mint Gmail access token.") 500))
  /\ (forall r, OAuth2.exchange w = inr r -> truthy (get_opt r "token") = false ->
        OAuth2.handler w req
        = ([token_exchange w; LogError mint_failed_label "Empty access token returned."],
           res_json (failure "Failed to mint Gmail access token.") 500)).
Proof.
  intros Hv Hs. split.
  - intros e He. apply (oauth2_mint_fails w req Hv e Hs).
    unfold OAuth2.mint. now rewrite He.
  - intros r Hr Ht.
    apply (oauth2_mint_fails w req Hv (Error "Error" "Empty access token returned.") Hs).
    unfold OAuth2.mint, or_else. now rewrite Hr, Ht.
Qed.

(** An exchange that is refused. *)
Lemma mint_failure_logged_witness :
  let w := sample_world oauth_env token_fails send_ok in
  fst (OAuth2.handler w ann)
  = [token_exchange w; LogError mint_failed_label "invalid_grant"].
Proof.
  intros w.
  destruct (mint_failure_logged w ann eq_refl eq_refl) as [H _].
  now rewrite (H (Error "GaxiosError" "invalid_grant") eq_refl).
Defined.

(** ** What of the body is read *)

Lemma same_fields (p1 p2 : value) :
  (forall k, In k read_keys -> get p1 k = get p2 k) ->
  read_fields p1 = read_fields p2 /\ missing_fields p1 = missing_fields p2.
Proof.
  intros H.
  unfold read_fields, missing_fields.
  rewrite (H "fullName"), (H "name"), (H "email"), (H "phone"), (H "whatsapp"),
    (H "experience"), (H "goals"), (H "message"), (H "cycle"), (H "cycleLabel"),
    (H "package"), (H "packageLabel") by (simpl; tauto).
  now split.
Qed.

(** X18.  Inside the envelope only the twelve keys the function reads count:
    two payloads that agree on them (whatever the order of their properties,
    whatever else they hold) give the same trace and the same answer. *)
Theorem only_read_keys_matter (w : world) (props1 props2 : list (string * value)) :
  (forall k, In k read_keys -> own k props1 = own k props2) ->
  OAuth2.handler w (wrapped props1) = OAuth2.handler w (wrapped props2)
  /\ Smtp.handler w (wrapped props1) = Smtp.handler w (wrapped props2).
Proof.
  intros H.
  destruct (same_fields (VObj props1) (VObj props2)) as [Hf Hm].
  { intros k Hk. unfold get. now rewrite (H k Hk). }
  apply handlers_read_fields; now rewrite !payload_wrapped.
Qed.

(** The sample payload with its properties in reverse order and one more. *)
Lemma only_read_keys_matter_witness :
  let w := sample_world smtp_env token_ok send_ok in
  Smtp.handler w (wrapped (("utm", VStr "x") :: rev ann_props))
  = Smtp.handler w (wrapped ann_props).
Proof.
  intros w.
  apply (only_read_keys_matter w (("utm", VStr "x") :: rev ann_props) ann_props).
  intros k Hk. simpl in Hk.
  repeat (destruct Hk as [<- | Hk]; [reflexivity |]). destruct Hk.
Defined.

(** X19.  The envelope wins: when the body has a property [payload] that is an
    object, whatever else the body holds is ignored; when that property is
    not an object or an array, it is the one ignored. *)
Theorem envelope_takes_precedence (w : world) (props others : list (string * value)) :
  (OAuth2.handler w (VObj (("payload", VObj props) :: others)) = OAuth2.handler w (wrapped props)
   /\ Smtp.handler w (VObj (("payload", VObj props) :: others)) = Smtp.handler w (wrapped props))
  /\ (forall v, structured v = false -> own "payload" others = None ->
        OAuth2.handler w (VObj (("payload", v) :: others)) = OAuth2.handler w (VObj others)
        /\ Smtp.handler w (VObj (("payload", v) :: others)) = Smtp.handler w (VObj others)).
Proof.
  split.
  - now apply handlers_read_fields.
  - intros v Hv Ho.
    assert (P1 : payload w (VObj (("payload", v) :: others)) = VObj (("payload", v) :: others)).
    { rewrite payload_object. simpl. now destruct v. }
    assert (P2 : payload w (VObj others) = VObj others).
    { rewrite payload_object. now rewrite Ho. }
    destruct (same_fields (VObj (("payload", v) :: others)) (VObj others)) as [Hf Hm].
    { intros k Hk. unfold get. simpl.
      destruct (string_eqb k "payload") eqn:E; [| reflexivity].
      apply string_eqb_eq in E as ->. simpl in Hk.
      repeat (destruct Hk as [Hk | Hk]; [discriminate Hk |]). destruct Hk. }
    apply handlers_read_fields; now rewrite P1, P2.
Qed.
